(** * imcgknEngine.hpp: a shallow embedding of the engine header

    The header wraps SDL2 and OpenGL in a handful of classes.  Every class
    is embedded as a record with the member names of the source, every
    member function as a function on that record.  Calls into SDL and the
    GL driver are recorded, in order, in a log; values that come back from
    the platform are read from an oracle that sees the log so far.
    [float] and [double] are IEEE-754 binary32 and binary64, computed with
    the reference implementation of [SpecFloat]. *)

From Stdlib Require Import ZArith SpecFloat Lia.
From stdpp Require Import gmap strings list.

Open Scope Z_scope.

(** ** Machine numbers *)

Module FP.

(** [float]: 24 bits of precision, exponents below 128. *)
Definition float := spec_float.
(** [double]: 53 bits of precision, exponents below 1024. *)
Definition double := spec_float.

Definition fadd : float -> float -> float := SFadd 24 128.
Definition fsub : float -> float -> float := SFsub 24 128.
Definition fmul : float -> float -> float := SFmul 24 128.
Definition fgt (a b : float) : bool := SFltb b a.
Definition flt (a b : float) : bool := SFltb a b.

Definition dsub : double -> double -> double := SFsub 53 1024.
Definition ddiv : double -> double -> double := SFdiv 53 1024.

(** [static_cast<float>(i)] and [(double)i] for an integer [i]. *)
Definition float_of_int (i : Z) : float := binary_normalize 24 128 i 0 false.
Definition double_of_int (i : Z) : double := binary_normalize 53 1024 i 0 false.

(** [static_cast<float>(d)] for a double [d]: round to nearest even. *)
Definition float_of_double (d : double) : float :=
  match d with
  | S754_finite s m e => binary_normalize 24 128 (cond_Zopp s (Zpos m)) e s
  | other => other
  end.

(** The literals of the source. *)
Definition f0 : float := S754_zero false.            (* 0.0f *)
Definition d0 : double := S754_zero false.           (* 0.0 *)
Definition f1 : float := float_of_int 1.             (* 1.0f *)
Definition f550 : float := float_of_int 550.         (* 550.0f *)

End FP.

Module Cxx.

(** Conversions to the fixed-width integer types, wrap-around written out. *)
Definition to_uint8 (z : Z) : Z := z mod 2 ^ 8.
Definition to_uint32 (z : Z) : Z := z mod 2 ^ 32.
Definition to_size_t (z : Z) : Z := z mod 2 ^ 64.
Definition to_int (z : Z) : Z := (z + 2 ^ 31) mod 2 ^ 32 - 2 ^ 31.

Definition PTRDIFF_MAX : Z := 2 ^ 63 - 1.

(** [v.size()] for a [std::vector] held as a list. *)
Definition size {A} (v : list A) : Z := Z.of_nat (length v).

(** A [std::vector<T>] never holds more than [PTRDIFF_MAX / sizeof(T)]
    elements ([max_size()]). *)
Definition vector_ok {A} (sizeof_T : Z) (v : list A) : Prop :=
  size v * sizeof_T <= PTRDIFF_MAX.

End Cxx.

(** ** Plain data of the header *)

Record vec2 := mk_vec2 { v2x : FP.float; v2y : FP.float }.
Record vec3 := mk_vec3 { v3x : FP.float; v3y : FP.float; v3z : FP.float }.
Record vec4 := mk_vec4 { v4x : FP.float; v4y : FP.float; v4z : FP.float; v4w : FP.float }.
(** [glm::mat4], four columns. *)
Record mat4 := mk_mat4 { col0 : vec4; col1 : vec4; col2 : vec4; col3 : vec4 }.

Record Vertex := mk_Vertex {
  aPos : vec3;
  aColor : vec3;
  aNormal : vec3;
  aUV : vec2
}.

Record Transform := mk_Transform {
  Position : vec3;
  Scale : vec3;
  Rotation : vec3
}.

(** [sizeof(Vertex)]: eleven floats; [sizeof(unsigned int)]. *)
Definition sizeof_Vertex : Z := 44.
Definition sizeof_unsigned_int : Z := 4.

(** [enum class KeyState], enumerators in the order of the source. *)
Inductive KeyState := JustPressed | JustReleased | Down | Released.

Definition KeyState_value (s : KeyState) : Z :=
  match s with JustPressed => 0 | JustReleased => 1 | Down => 2 | Released => 3 end.

(** [KeyState{}], the value-initialised state that [operator[]] of the two
    maps inserts for an absent key: the enumerator of value 0. *)
Definition KeyState_zero : KeyState := JustPressed.

Definition KeyState_eqb (a b : KeyState) : bool :=
  KeyState_value a =? KeyState_value b.

Inductive RenderMode :=
  Points | Lines | Line_Loop | Line_Strip | Triangles | Triangle_Fan | Triangle_Strip.

(** [enum class BufferUsage]; kept in a module, as [BufferUsage::Empty]
    would otherwise hide the [Empty] class of stdpp. *)
Module BufferUsage.
Inductive t :=
  Empty | StaticDraw | StaticCopy | StaticRead | DynamicDraw | DynamicCopy | DynamicRead.
End BufferUsage.

Inductive TextureType :=
  Texture1D | Texture1DArray | Texture2D | Texture2DArray | Texture3D | TextureCubemap.

(** ** Calls into SDL and the GL driver *)

Inductive BufferTarget := GL_ARRAY_BUFFER | GL_ELEMENT_ARRAY_BUFFER.

(** What [v.data()] points to in an upload. *)
Inductive BufferSource :=
| VertexData (vs : list Vertex)
| IndexData (indices : list Z).

Inductive Call :=
| SDL_Init
| SDL_GL_SetAttribute (attr : string) (value : Z)
| SDL_CreateWindow (title : string) (w h flags : Z)
| SDL_GL_CreateContext (window : Z)
| SDL_GL_MakeCurrent (window ctx : Z)
| gladLoadGLLoader
| SDL_GL_GetDrawableSize (window : Z)
| SDL_GetPerformanceCounter
| SDL_GetPerformanceFrequency
| SDL_GL_SwapWindow (window : Z)
| SDL_SetRelativeMouseMode (v : bool)
| glViewport (x y w h : Z)
| glClearColor (r g b a : FP.float)
| glClear (bitField : Z)
| glUseProgram (program : Z)
| glGetUniformLocation (program : Z) (name : string)
| glUniformMatrix4fv (location count : Z) (transpose : bool) (value : mat4)
| glUniform4fv (location count : Z) (value : vec4)
| glUniform3fv (location count : Z) (value : vec3)
| glUniform2fv (location count : Z) (value : vec2)
| glUniform1f (location : Z) (v : FP.float)
| glUniform1i (location : Z) (v : Z)
| glActiveTexture (unit_ : Z)
| glBindTexture (target : TextureType) (texture : Z)
| glGenBuffers
| glDeleteBuffers (buffer : Z)
| glBindBuffer (target : BufferTarget) (buffer : Z)
| glBufferData (target : BufferTarget) (size : Z) (data : BufferSource) (usage : BufferUsage.t)
| glBufferSubData (target : BufferTarget) (offset size : Z) (data : BufferSource)
| glGenVertexArrays
| glDeleteVertexArrays (array : Z)
| glBindVertexArray (array : Z)
| glEnableVertexAttribArray (index : Z)
| glVertexAttribPointer (index size : Z) (type : string) (normalized : bool) (stride pointer : Z)
| glDrawElements (mode : RenderMode) (count : Z) (type : string)
| glDrawArrays (mode : RenderMode) (first count : Z).

(** The platform behind the header: one header constant, and what SDL and
    the driver hand back.  An answer may depend on everything called so far. *)
Class Platform := {
  SDL_NUM_SCANCODES : nat;
  returns : list Call -> Call -> Z;
  returns2 : list Call -> Call -> Z * Z
}.

(** ** The effect monad

    A computation reads and extends the call log.  It ends normally, by a
    [throw] (the [Error] macro), or by dereferencing a null pointer. *)

Inductive outcome (A : Type) :=
| Normal (a : A) (log : list Call)
| Thrown (what : string) (log : list Call)
| NullDereference (log : list Call).
Arguments Normal {A} a log.
Arguments Thrown {A} what log.
Arguments NullDereference {A} log.

Definition GL (A : Type) : Type := list Call -> outcome A.

Definition ret {A} (a : A) : GL A := fun log => Normal a log.

Definition bind {A B} (m : GL A) (k : A -> GL B) : GL B :=
  fun log =>
    match m log with
    | Normal a log' => k a log'
    | Thrown what log' => Thrown what log'
    | NullDereference log' => NullDereference log'
    end.

#[global] Instance GL_ret : MRet GL := @ret.
#[global] Instance GL_bind : MBind GL := fun A B k m => bind m k.

(** A call with no result, a call with one result, a call with two. *)
Definition call (c : Call) : GL unit := fun log => Normal tt (log ++ [c]).
Definition ask `{Platform} (c : Call) : GL Z :=
  fun log => Normal (returns log c) (log ++ [c]).
Definition ask2 `{Platform} (c : Call) : GL (Z * Z) :=
  fun log => Normal (returns2 log c) (log ++ [c]).

(** What [std::endl] writes into a stream: a newline. *)
Definition endl : string := String (Ascii.ascii_of_nat 10) EmptyString.

(** The [Error(x)] macro: the text streamed is ["Error! << "], [x] and
    [std::endl], and it is the [what()] of the exception thrown. *)
Definition Error {A} (x : string) : GL A :=
  fun log => Thrown (String.append (String.append "Error! << " x) endl) log.

(** [*p] and [p->] for a pointer that may be null. *)
Definition deref {A} (p : option A) : GL A :=
  fun log => match p with Some a => Normal a log | None => NullDereference log end.

(** ** class Window *)

(** The events [SDL_PollEvent] can deliver, with the fields the header reads. *)
Inductive SDL_WindowEventID := SDL_WINDOWEVENT_RESIZED | SDL_WINDOWEVENT_other (id : Z).

Inductive SDL_Event :=
| SDL_QUIT
| SDL_KEYDOWN (scancode : Z)
| SDL_KEYUP (scancode : Z)
| SDL_MOUSEBUTTONDOWN (button : Z)
| SDL_MOUSEBUTTONUP (button : Z)
| SDL_WINDOWEVENT (event : SDL_WindowEventID) (data1 data2 : Z)
| SDL_MOUSEMOTION (x y xrel yrel : Z)
| SDL_MOUSEWHEEL (preciseY : FP.float)
| SDL_other (type : Z).

(** [m[k]] on a [std::unordered_map<K, KeyState>] read as an rvalue: an
    absent key is inserted with the value-initialised state. *)
Definition map_index (m : gmap Z KeyState) (k : Z) : KeyState * gmap Z KeyState :=
  match m !! k with
  | Some s => (s, m)
  | None => (KeyState_zero, <[k := KeyState_zero]> m)
  end.

Module Window.

Record t := mk {
  window : Z;
  glContext : Z;
  m_Width : Z;
  m_Height : Z;
  m_IsOpen : bool;
  m_IsResized : bool;
  m_DeltaTime : FP.double;
  m_LastFrame : FP.double;
  m_MousePosX : FP.float;
  m_MousePosY : FP.float;
  m_MouseRelX : FP.float;
  m_MouseRelY : FP.float;
  m_ScrollDistance : FP.float;
  m_ZoomSpeed : FP.float;
  m_Keys : gmap Z KeyState;
  m_MouseButtons : gmap Z KeyState
}.

(** Assignments to members. *)
Definition set_size (wd ht : Z) (w : t) : t :=
  mk (window w) (glContext w) wd ht (m_IsOpen w) (m_IsResized w)
     (m_DeltaTime w) (m_LastFrame w) (m_MousePosX w) (m_MousePosY w)
     (m_MouseRelX w) (m_MouseRelY w) (m_ScrollDistance w) (m_ZoomSpeed w)
     (m_Keys w) (m_MouseButtons w).
Definition set_IsOpen (b : bool) (w : t) : t :=
  mk (window w) (glContext w) (m_Width w) (m_Height w) b (m_IsResized w)
     (m_DeltaTime w) (m_LastFrame w) (m_MousePosX w) (m_MousePosY w)
     (m_MouseRelX w) (m_MouseRelY w) (m_ScrollDistance w) (m_ZoomSpeed w)
     (m_Keys w) (m_MouseButtons w).
Definition set_IsResized (b : bool) (w : t) : t :=
  mk (window w) (glContext w) (m_Width w) (m_Height w) (m_IsOpen w) b
     (m_DeltaTime w) (m_LastFrame w) (m_MousePosX w) (m_MousePosY w)
     (m_MouseRelX w) (m_MouseRelY w) (m_ScrollDistance w) (m_ZoomSpeed w)
     (m_Keys w) (m_MouseButtons w).
Definition set_time (dt last : FP.double) (w : t) : t :=
  mk (window w) (glContext w) (m_Width w) (m_Height w) (m_IsOpen w) (m_IsResized w)
     dt last (m_MousePosX w) (m_MousePosY w)
     (m_MouseRelX w) (m_MouseRelY w) (m_ScrollDistance w) (m_ZoomSpeed w)
     (m_Keys w) (m_MouseButtons w).
Definition set_MousePos (x y : FP.float) (w : t) : t :=
  mk (window w) (glContext w) (m_Width w) (m_Height w) (m_IsOpen w) (m_IsResized w)
     (m_DeltaTime w) (m_LastFrame w) x y
     (m_MouseRelX w) (m_MouseRelY w) (m_ScrollDistance w) (m_ZoomSpeed w)
     (m_Keys w) (m_MouseButtons w).
Definition set_MouseRel (x y : FP.float) (w : t) : t :=
  mk (window w) (glContext w) (m_Width w) (m_Height w) (m_IsOpen w) (m_IsResized w)
     (m_DeltaTime w) (m_LastFrame w) (m_MousePosX w) (m_MousePosY w)
     x y (m_ScrollDistance w) (m_ZoomSpeed w)
     (m_Keys w) (m_MouseButtons w).
Definition set_ScrollDistance (d : FP.float) (w : t) : t :=
  mk (window w) (glContext w) (m_Width w) (m_Height w) (m_IsOpen w) (m_IsResized w)
     (m_DeltaTime w) (m_LastFrame w) (m_MousePosX w) (m_MousePosY w)
     (m_MouseRelX w) (m_MouseRelY w) d (m_ZoomSpeed w)
     (m_Keys w) (m_MouseButtons w).
Definition set_Keys (keys : gmap Z KeyState) (w : t) : t :=
  mk (window w) (glContext w) (m_Width w) (m_Height w) (m_IsOpen w) (m_IsResized w)
     (m_DeltaTime w) (m_LastFrame w) (m_MousePosX w) (m_MousePosY w)
     (m_MouseRelX w) (m_MouseRelY w) (m_ScrollDistance w) (m_ZoomSpeed w)
     keys (m_MouseButtons w).
Definition set_MouseButtons (buttons : gmap Z KeyState) (w : t) : t :=
  mk (window w) (glContext w) (m_Width w) (m_Height w) (m_IsOpen w) (m_IsResized w)
     (m_DeltaTime w) (m_LastFrame w) (m_MousePosX w) (m_MousePosY w)
     (m_MouseRelX w) (m_MouseRelY w) (m_ScrollDistance w) (m_ZoomSpeed w)
     (m_Keys w) buttons.

(** The two loops at the end of the constructor:
    [for (int i = 0; i < n; ++i) m[i] = KeyState::Released;]
    (for the buttons [i] is converted to [uint8_t], which leaves 0..4 as
    they are). *)
Definition released_upto (n : nat) (m : gmap Z KeyState) : gmap Z KeyState :=
  foldl (fun acc i => <[Z.of_nat i := Released]> acc) m (seq 0 n).

Section WithPlatform.
Context `{Platform}.

(** [Window(w, h, title, major, minor, flags)] *)
Definition Window (w h : Z) (title : string) (openglMajorVersion openglMinorVersion flags : Z)
  : GL t :=
  r ← ask SDL_Init;
  if r <? 0 then Error "Failed to initialize SDL2." else
  call (SDL_GL_SetAttribute "SDL_GL_CONTEXT_MAJOR_VERSION" openglMajorVersion);;
  call (SDL_GL_SetAttribute "SDL_GL_CONTEXT_MINOR_VERSION" openglMinorVersion);;
  (* SDL_GL_CONTEXT_PROFILE_CORE is 1 *)
  call (SDL_GL_SetAttribute "SDL_GL_CONTEXT_PROFILE_MASK" 1);;
  win ← ask (SDL_CreateWindow title w h (Cxx.to_uint32 flags));
  if win =? 0 then Error "Failed to create SDL_window." else
  ctx ← ask (SDL_GL_CreateContext win);
  call (SDL_GL_MakeCurrent win ctx);;
  loaded ← ask gladLoadGLLoader;
  if loaded =? 0 then Error "Failed to load GLAD!" else
  drawable ← ask2 (SDL_GL_GetDrawableSize win);
  call (glViewport 0 0 drawable.1 drawable.2);;
  counter ← ask SDL_GetPerformanceCounter;
  mret {| window := win; glContext := ctx;
          m_Width := drawable.1; m_Height := drawable.2;
          m_IsOpen := true; m_IsResized := false;
          m_DeltaTime := FP.d0; m_LastFrame := FP.double_of_int counter;
          m_MousePosX := FP.f0; m_MousePosY := FP.f0;
          m_MouseRelX := FP.f0; m_MouseRelY := FP.f0;
          m_ScrollDistance := FP.f0; m_ZoomSpeed := FP.f550;
          m_Keys := released_upto SDL_NUM_SCANCODES ∅;
          m_MouseButtons := released_upto 5 ∅ |}.

(** [UpdateDeltaTime()] *)
Definition UpdateDeltaTime (w : t) : GL t :=
  counter ← ask SDL_GetPerformanceCounter;
  let newFrame := FP.double_of_int counter in
  frequency ← ask SDL_GetPerformanceFrequency;
  mret (set_time (FP.ddiv (FP.dsub newFrame (m_LastFrame w)) (FP.double_of_int frequency))
                 newFrame w).

End WithPlatform.

(** One turn of the [switch (ev.type)] in [FirstUpdate]. *)
Definition handle_event (ev : SDL_Event) (w : t) : GL t :=
  match ev with
  | SDL_QUIT => mret (set_IsOpen false w)
  | SDL_KEYDOWN scancode => mret (set_Keys (<[scancode := JustPressed]> (m_Keys w)) w)
  | SDL_KEYUP scancode => mret (set_Keys (<[scancode := JustReleased]> (m_Keys w)) w)
  | SDL_MOUSEBUTTONDOWN button =>
      mret (set_MouseButtons (<[Cxx.to_uint8 button := JustPressed]> (m_MouseButtons w)) w)
  | SDL_MOUSEBUTTONUP button =>
      mret (set_MouseButtons (<[Cxx.to_uint8 button := JustReleased]> (m_MouseButtons w)) w)
  | SDL_WINDOWEVENT event data1 data2 =>
      match event with
      | SDL_WINDOWEVENT_RESIZED =>
          let w := set_size data1 data2 w in
          call (glViewport 0 0 (m_Width w) (m_Height w));;
          mret (set_IsResized true w)
      | SDL_WINDOWEVENT_other _ => mret w
      end
  | SDL_MOUSEMOTION x y xrel yrel =>
      let w := set_MouseRel (FP.float_of_int xrel) (FP.float_of_int yrel) w in
      mret (set_MousePos (FP.float_of_int x) (FP.float_of_int y) w)
  | SDL_MOUSEWHEEL preciseY =>
      if FP.fgt preciseY (FP.float_of_int 0) then
        mret (set_ScrollDistance
                (FP.fsub (m_ScrollDistance w)
                         (FP.fmul (m_ZoomSpeed w) (FP.float_of_double (m_DeltaTime w)))) w)
      else if FP.flt preciseY (FP.float_of_int 0) then
        mret (set_ScrollDistance
                (FP.fadd (m_ScrollDistance w)
                         (FP.fmul (m_ZoomSpeed w) (FP.float_of_double (m_DeltaTime w)))) w)
      else mret w
  | SDL_other _ => mret w
  end.

(** [FirstUpdate()]: [while (SDL_PollEvent(&ev)) switch ...], on the
    events that are pending when it is called. *)
Fixpoint FirstUpdate (pending : list SDL_Event) (w : t) : GL t :=
  match pending with
  | [] => mret w
  | ev :: rest => w' ← handle_event ev w; FirstUpdate rest w'
  end.

(** The body of both loops of [SecondUpdate], on one mapped value. *)
Definition decay (s : KeyState) : KeyState :=
  let s := if KeyState_eqb s JustPressed then Down else s in
  let s := if KeyState_eqb s JustReleased then Released else s in
  s.

(** [SecondUpdate()] *)
Definition SecondUpdate (w : t) : t :=
  let w := set_Keys (decay <$> m_Keys w) w in
  let w := set_MouseButtons (decay <$> m_MouseButtons w) w in
  let w := set_IsResized false w in
  set_MouseRel FP.f0 FP.f0 w.

Definition SwapBuffer (w : t) : GL unit := call (SDL_GL_SwapWindow (window w)).

Definition ClearScreen (bitField : Z) (r g b a : FP.float) (w : t) : GL unit :=
  call (glClearColor r g b a);; call (glClear bitField).

Definition CloseWindow (w : t) : t := set_IsOpen false w.

Definition GetMousePos (w : t) : FP.float * FP.float := (m_MousePosX w, m_MousePosY w).
Definition GetRelMousePos (w : t) : FP.float * FP.float := (m_MouseRelX w, m_MouseRelY w).

Definition SetRelativeMouseMode (v : bool) (w : t) : GL unit :=
  call (SDL_SetRelativeMouseMode v).

Definition IsOpen (w : t) : bool := Bool.eqb (m_IsOpen w) true.
Definition GetResized (w : t) : bool := m_IsResized w.

(** The four queries are not [const]: they index the map with
    [operator[]], so each returns its answer and the window it leaves. *)
Definition CheckKeyUp (key : Z) (w : t) : bool * t :=
  let '(s, keys) := map_index (m_Keys w) key in
  (KeyState_eqb s JustReleased, set_Keys keys w).

Definition CheckKeyDown (key : Z) (w : t) : bool * t :=
  let '(s, keys) := map_index (m_Keys w) key in
  (KeyState_eqb s Down, set_Keys keys w).

Definition CheckMouseButtonUp (key : Z) (w : t) : bool * t :=
  let '(s, buttons) := map_index (m_MouseButtons w) (Cxx.to_uint8 key) in
  (KeyState_eqb s JustReleased, set_MouseButtons buttons w).

Definition CheckMouseButtonDown (key : Z) (w : t) : bool * t :=
  let '(s, buttons) := map_index (m_MouseButtons w) (Cxx.to_uint8 key) in
  (KeyState_eqb s Down, set_MouseButtons buttons w).

Definition GetDeltaTime (w : t) : FP.float := FP.float_of_double (m_DeltaTime w).
Definition GetScrollDistance (w : t) : FP.float := m_ScrollDistance w.
Definition GetWidth (w : t) : Z := m_Width w.
Definition GetHeight (w : t) : Z := m_Height w.

End Window.

(** ** class Shader *)

(** [m.insert({k, v})] on a [std::map]: an entry that is already there stays. *)
Definition std_map_insert (k : string) (v : Z) (m : gmap string Z) : gmap string Z :=
  match m !! k with
  | Some _ => m
  | None => <[k := v]> m
  end.

Module Shader.

Record t := mk {
  m_ID : Z;
  m_UniformLocations : gmap string Z
}.

Definition Use (s : t) : GL unit := call (glUseProgram (m_ID s)).
Definition Unuse (s : t) : GL unit := call (glUseProgram 0).

Section WithPlatform.
Context `{Platform}.

(** [GetUniformLocation(name)]: the location, and the shader with its
    cache as the call leaves it. *)
Definition GetUniformLocation (name : string) (s : t) : GL (Z * t) :=
  match m_UniformLocations s !! name with
  | Some location => mret (location, s)
  | None =>
      location ← ask (glGetUniformLocation (m_ID s) name);
      mret (location, mk (m_ID s) (std_map_insert name location (m_UniformLocations s)))
  end.

Definition SetMat4 (name : string) (count : Z) (transpose : bool) (v : mat4) (s : t) : GL t :=
  Use s;;
  r ← GetUniformLocation name s;
  call (glUniformMatrix4fv r.1 count transpose v);;
  mret r.2.

Definition SetVec4 (name : string) (count : Z) (v : vec4) (s : t) : GL t :=
  Use s;;
  r ← GetUniformLocation name s;
  call (glUniform4fv r.1 count v);;
  mret r.2.

Definition SetVec3 (name : string) (count : Z) (v : vec3) (s : t) : GL t :=
  Use s;;
  r ← GetUniformLocation name s;
  call (glUniform3fv r.1 count v);;
  mret r.2.

Definition SetVec2 (name : string) (count : Z) (v : vec2) (s : t) : GL t :=
  Use s;;
  r ← GetUniformLocation name s;
  call (glUniform2fv r.1 count v);;
  mret r.2.

Definition SetFloat (name : string) (v : FP.float) (s : t) : GL t :=
  Use s;;
  r ← GetUniformLocation name s;
  call (glUniform1f r.1 v);;
  mret r.2.

Definition SetInt (name : string) (v : Z) (s : t) : GL t :=
  Use s;;
  r ← GetUniformLocation name s;
  call (glUniform1i r.1 v);;
  mret r.2.

Definition SetBool (name : string) (v : bool) (s : t) : GL t :=
  Use s;;
  r ← GetUniformLocation name s;
  call (glUniform1i r.1 (if v then 1 else 0));;
  mret r.2.

End WithPlatform.

End Shader.

(** ** class Texture *)

Module Texture.

Record t := mk {
  m_ID : Z;
  m_Width : Z;
  m_Height : Z;
  m_Channels : Z;
  m_Type : TextureType
}.

(** [Bind(slot)]; the unit is written as its offset from [GL_TEXTURE0]. *)
Definition Bind (slot : Z) (x : t) : GL unit :=
  call (glActiveTexture slot);;
  call (glBindTexture (m_Type x) (m_ID x)).

Definition Unbind (x : t) : GL unit := call (glBindTexture (m_Type x) 0).

End Texture.

(** ** class VertexBufferObject *)

Module VertexBufferObject.

Record t := mk {
  m_ID : Z;
  m_Usage : BufferUsage.t;
  m_Size : Z;
  m_VertexCount : Z
}.

Definition Use (b : t) : GL unit := call (glBindBuffer GL_ARRAY_BUFFER (m_ID b)).
Definition Unuse (b : t) : GL unit := call (glBindBuffer GL_ARRAY_BUFFER 0).
Definition GetVertexCount (b : t) : Z := m_VertexCount b.

Section WithPlatform.
Context `{Platform}.

(** [VertexBufferObject(vertices, _usage)] *)
Definition VertexBufferObject (vertices : list Vertex) (_usage : BufferUsage.t) : GL t :=
  id ← ask glGenBuffers;
  let size := Cxx.to_size_t (Cxx.size vertices * sizeof_Vertex) in
  let count := Cxx.size vertices in
  call (glBindBuffer GL_ARRAY_BUFFER id);;
  call (glBufferData GL_ARRAY_BUFFER size (VertexData vertices) _usage);;
  mret (mk id _usage size count).

(** [VertexBufferObject()]: [m_VertexCount] keeps its initialiser [= 0]. *)
Definition VertexBufferObject_empty : GL t :=
  id ← ask glGenBuffers;
  mret (mk id BufferUsage.Empty 0 0).

End WithPlatform.

(** [~VertexBufferObject()] *)
Definition destroy (b : t) : GL unit := call (glDeleteBuffers (m_ID b)).

(** [VertexBufferObject(VertexBufferObject&& other)]: the new object and
    what is left of [other].  Only [m_ID] and [m_Usage] are in the
    initialiser list; [m_Size] and [m_VertexCount] take their default
    member initialisers [= 0]. *)
Definition move_construct (other : t) : t * t :=
  (mk (m_ID other) (m_Usage other) 0 0,
   mk 0 BufferUsage.Empty (m_Size other) (m_VertexCount other)).

(** [operator=(VertexBufferObject&& other)], for [*this] at address
    [this_addr] and [other] at [other_addr]: [*this] and [other] after
    the assignment. *)
Definition move_assign (this_addr other_addr : Z) (this other : t) : GL (t * t) :=
  if bool_decide (this_addr ≠ other_addr) then
    call (glDeleteBuffers (m_ID this));;
    mret (mk (m_ID other) (m_Usage other) (m_Size this) (m_VertexCount other),
          mk 0 (m_Usage other) (m_Size other) (m_VertexCount other))
  else mret (this, other).

(** [UpdateVBO(vertices)] *)
Definition UpdateVBO (vertices : list Vertex) (b : t) : GL t :=
  Use b;;
  let newSize := Cxx.to_size_t (Cxx.size vertices * sizeof_Vertex) in
  let b := mk (m_ID b) (m_Usage b) (m_Size b) (Cxx.size vertices) in
  if newSize =? m_Size b then
    call (glBufferSubData GL_ARRAY_BUFFER 0 newSize (VertexData vertices));;
    mret b
  else
    call (glBufferData GL_ARRAY_BUFFER newSize (VertexData vertices) (m_Usage b));;
    mret (mk (m_ID b) (m_Usage b) newSize (m_VertexCount b)).

End VertexBufferObject.

(** ** class ElementBufferObject *)

Module ElementBufferObject.

Record t := mk {
  m_ID : Z;
  m_Usage : BufferUsage.t;
  m_Size : Z;
  m_IndexCount : Z
}.

Definition Use (b : t) : GL unit := call (glBindBuffer GL_ELEMENT_ARRAY_BUFFER (m_ID b)).
Definition Unuse (b : t) : GL unit := call (glBindBuffer GL_ELEMENT_ARRAY_BUFFER 0).
Definition GetIndexCount (b : t) : Z := m_IndexCount b.

Section WithPlatform.
Context `{Platform}.

(** [ElementBufferObject(indices, _usage)] *)
Definition ElementBufferObject (indices : list Z) (_usage : BufferUsage.t) : GL t :=
  id ← ask glGenBuffers;
  let size := Cxx.to_size_t (Cxx.size indices * sizeof_unsigned_int) in
  let count := Cxx.size indices in
  call (glBindBuffer GL_ELEMENT_ARRAY_BUFFER id);;
  call (glBufferData GL_ELEMENT_ARRAY_BUFFER size (IndexData indices) _usage);;
  mret (mk id _usage size count).

(** [ElementBufferObject()] *)
Definition ElementBufferObject_empty : GL t :=
  id ← ask glGenBuffers;
  mret (mk id BufferUsage.Empty 0 0).

End WithPlatform.

(** [~ElementBufferObject()] *)
Definition destroy (b : t) : GL unit := call (glDeleteBuffers (m_ID b)).

(** [ElementBufferObject(ElementBufferObject&& other)] *)
Definition move_construct (other : t) : t * t :=
  (mk (m_ID other) (m_Usage other) 0 0,
   mk 0 BufferUsage.Empty (m_Size other) (m_IndexCount other)).

(** [operator=(ElementBufferObject&& other)] *)
Definition move_assign (this_addr other_addr : Z) (this other : t) : GL (t * t) :=
  if bool_decide (this_addr ≠ other_addr) then
    call (glDeleteBuffers (m_ID this));;
    mret (mk (m_ID other) (m_Usage other) (m_Size this) (m_IndexCount other),
          mk 0 (m_Usage other) (m_Size other) (m_IndexCount other))
  else mret (this, other).

(** [UpdateVBO(indices)] *)
Definition UpdateVBO (indices : list Z) (b : t) : GL t :=
  Use b;;
  let newSize := Cxx.to_size_t (Cxx.size indices * sizeof_unsigned_int) in
  let b := mk (m_ID b) (m_Usage b) (m_Size b) (Cxx.size indices) in
  if newSize =? m_Size b then
    call (glBufferSubData GL_ELEMENT_ARRAY_BUFFER 0 newSize (IndexData indices));;
    mret b
  else
    call (glBufferData GL_ELEMENT_ARRAY_BUFFER newSize (IndexData indices) (m_Usage b));;
    mret (mk (m_ID b) (m_Usage b) newSize (m_IndexCount b)).

End ElementBufferObject.

(** ** class VertexArrayObject *)

Module VertexArrayObject.

Record t := mk { m_ID : Z }.

Definition Use (a : t) : GL unit := call (glBindVertexArray (m_ID a)).
Definition Unuse (a : t) : GL unit := call (glBindVertexArray 0).

Section WithPlatform.
Context `{Platform}.

(** [VertexArrayObject()] *)
Definition VertexArrayObject : GL t :=
  id ← ask glGenVertexArrays;
  mret (mk id).

End WithPlatform.

(** [~VertexArrayObject()] *)
Definition destroy (a : t) : GL unit := call (glDeleteVertexArrays (m_ID a)).

(** [VertexArrayObject(VertexArrayObject&& other)] *)
Definition move_construct (other : t) : t * t := (mk (m_ID other), mk 0).

(** [operator=(VertexArrayObject&& other)] *)
Definition move_assign (this_addr other_addr : Z) (this other : t) : GL (t * t) :=
  if bool_decide (this_addr ≠ other_addr) then
    call (glDeleteVertexArrays (m_ID this));;
    mret (mk (m_ID other), mk 0)
  else mret (this, other).

(** [LinkAttrib(vbo, index, size, type, normalized, stride, pointer)] *)
Definition LinkAttrib (vbo : option VertexBufferObject.t) (index size : Z) (type : string)
    (normalized : bool) (stride pointer : Z) (a : t) : GL unit :=
  Use a;;
  b ← deref vbo;
  VertexBufferObject.Use b;;
  call (glEnableVertexAttribArray index);;
  call (glVertexAttribPointer index size type normalized stride pointer).

End VertexArrayObject.

(** ** class Renderable *)

Module Renderable.

(** The three [std::unique_ptr] members are [None] when null. *)
Record t := mk {
  m_VAO : option VertexArrayObject.t;
  m_VBO : option VertexBufferObject.t;
  m_EBO : option ElementBufferObject.t;
  m_Vertices : list Vertex;
  m_Indices : list Z
}.

(** The four [LinkAttrib] calls shared by two constructors; the last
    argument is [offsetof(Vertex, ...)]. *)
Definition link_layout (vao : VertexArrayObject.t) (vbo : VertexBufferObject.t) : GL unit :=
  VertexArrayObject.LinkAttrib (Some vbo) 0 3 "GL_FLOAT" false sizeof_Vertex 0 vao;;
  VertexArrayObject.LinkAttrib (Some vbo) 1 3 "GL_FLOAT" false sizeof_Vertex 12 vao;;
  VertexArrayObject.LinkAttrib (Some vbo) 2 3 "GL_FLOAT" false sizeof_Vertex 24 vao;;
  VertexArrayObject.LinkAttrib (Some vbo) 3 2 "GL_FLOAT" false sizeof_Vertex 36 vao.

Section WithPlatform.
Context `{Platform}.

(** [Renderable()] *)
Definition Renderable_empty : GL t :=
  vao ← VertexArrayObject.VertexArrayObject;
  mret (mk (Some vao) None None [] []).

(** [Renderable(vertices, vboUsage)] *)
Definition Renderable (vertices : list Vertex) (vboUsage : BufferUsage.t) : GL t :=
  vao ← VertexArrayObject.VertexArrayObject;
  vbo ← VertexBufferObject.VertexBufferObject vertices vboUsage;
  VertexArrayObject.Use vao;;
  VertexBufferObject.Use vbo;;
  link_layout vao vbo;;
  VertexArrayObject.Unuse vao;;
  mret (mk (Some vao) (Some vbo) None vertices []).

(** [Renderable(vertices, vboUsage, indices, eboUsage)] *)
Definition Renderable_indexed (vertices : list Vertex) (vboUsage : BufferUsage.t)
    (indices : list Z) (eboUsage : BufferUsage.t) : GL t :=
  vao ← VertexArrayObject.VertexArrayObject;
  vbo ← VertexBufferObject.VertexBufferObject vertices vboUsage;
  VertexArrayObject.Use vao;;
  ebo ← (if 0 <? Cxx.size indices then
           e ← ElementBufferObject.ElementBufferObject indices eboUsage;
           ElementBufferObject.Use e;;
           mret (Some e)
         else mret None);
  VertexBufferObject.Use vbo;;
  link_layout vao vbo;;
  VertexArrayObject.Unuse vao;;
  mret (mk (Some vao) (Some vbo) ebo vertices indices).

End WithPlatform.

(** [GetVAO()] and [GetVBO()] return [*p.get()]; [GetEBO()] returns the
    pointer itself. *)
Definition GetVAO (r : t) : GL VertexArrayObject.t := deref (m_VAO r).
Definition GetVBO (r : t) : GL VertexBufferObject.t := deref (m_VBO r).
Definition GetEBO (r : t) : option ElementBufferObject.t := m_EBO r.

End Renderable.

(** ** class GameObject *)

(** The functions of GLM that [Render] calls. *)
Class GLM := {
  glm_translate : mat4 -> vec3 -> mat4;
  glm_scale : mat4 -> vec3 -> mat4;
  glm_rotate : mat4 -> FP.float -> vec3 -> mat4;
  glm_radians : FP.float -> FP.float
}.

(** [glm::mat4(x)]: [x] on the diagonal. *)
Definition glm_mat4 (x : FP.float) : mat4 :=
  mk_mat4 (mk_vec4 x FP.f0 FP.f0 FP.f0) (mk_vec4 FP.f0 x FP.f0 FP.f0)
          (mk_vec4 FP.f0 FP.f0 x FP.f0) (mk_vec4 FP.f0 FP.f0 FP.f0 x).

(** [glm::vec3(a, b, c)] on integer literals. *)
Definition glm_vec3 (a b c : Z) : vec3 :=
  mk_vec3 (FP.float_of_int a) (FP.float_of_int b) (FP.float_of_int c).

Module GameObject.

(** The two [std::shared_ptr] members are [None] when null. *)
Record t := mk {
  m_Transform : Transform;
  m_Renderable : option Renderable.t;
  m_Texture : option Texture.t
}.

Definition GameObject (transform : Transform) : t := mk transform None None.

Definition SetRenderable (renderable : option Renderable.t) (g : t) : t :=
  mk (m_Transform g) renderable (m_Texture g).

Definition SetTexture (texture : option Texture.t) (g : t) : t :=
  mk (m_Transform g) (m_Renderable g) texture.

Section WithPlatform.
Context `{Platform} `{GLM}.

(** [CreateRenderable(args...)], for the three constructors. *)
Definition CreateRenderable (make : GL Renderable.t) (g : t) : GL t :=
  r ← make;
  mret (SetRenderable (Some r) g).

(** [Render(shader, modelName, sampler2DName, renderMode)]: the object
    and the shader behind the pointer, as the call leaves them. *)
Definition Render (shader : option Shader.t) (modelName sampler2DName : string)
    (renderMode : RenderMode) (g : t) : GL (t * option Shader.t) :=
  match m_Renderable g, shader with
  | None, _ | _, None => mret (g, shader)
  | Some renderable, Some sh =>
      Shader.Use sh;;
      let model := glm_mat4 FP.f1 in
      let model := glm_translate model (Position (m_Transform g)) in
      let model := glm_scale model (Scale (m_Transform g)) in
      let model := glm_rotate model (glm_radians (v3z (Rotation (m_Transform g)))) (glm_vec3 0 0 1) in
      let model := glm_rotate model (glm_radians (v3y (Rotation (m_Transform g)))) (glm_vec3 0 1 0) in
      let model := glm_rotate model (glm_radians (v3x (Rotation (m_Transform g)))) (glm_vec3 1 0 0) in
      sh ← Shader.SetMat4 modelName 1 false model sh;
      sh ← match m_Texture g with
           | Some texture => Texture.Bind 0 texture;; Shader.SetInt sampler2DName 0 sh
           | None => mret sh
           end;
      vao ← Renderable.GetVAO renderable;
      VertexArrayObject.Use vao;;
      ebo ← deref (Renderable.GetEBO renderable);
      (if (0 <? ElementBufferObject.GetIndexCount ebo)
          && bool_decide (Renderable.GetEBO renderable ≠ None)
       then
         ebo ← deref (Renderable.GetEBO renderable);
         call (glDrawElements renderMode (Cxx.to_int (ElementBufferObject.GetIndexCount ebo))
                              "GL_UNSIGNED_INT")
       else
         vbo ← Renderable.GetVBO renderable;
         call (glDrawArrays renderMode 0 (Cxx.to_int (VertexBufferObject.GetVertexCount vbo))));;
      vao ← Renderable.GetVAO renderable;
      VertexArrayObject.Unuse vao;;
      match m_Texture g with
      | Some texture => Texture.Unbind texture
      | None => mret tt
      end;;
      Shader.Unuse sh;;
      mret (g, Some sh)
  end.

End WithPlatform.

End GameObject.

(** ** Programs over one object

    What an application can do to a [Window], to a [Shader] and to a
    buffer between construction and destruction, as a list of member calls
    run in order. *)

Inductive window_op :=
| DoFirstUpdate (pending : list SDL_Event)
| DoSecondUpdate
| DoUpdateDeltaTime
| DoSwapBuffer
| DoClearScreen (bitField : Z) (r g b a : FP.float)
| DoCloseWindow
| DoSetRelativeMouseMode (v : bool)
| DoCheckKeyUp (key : Z)
| DoCheckKeyDown (key : Z)
| DoCheckMouseButtonUp (key : Z)
| DoCheckMouseButtonDown (key : Z).

(** The events an operation delivers. *)
Definition delivered (o : window_op) : list SDL_Event :=
  match o with
  | DoFirstUpdate pending => pending
  | _ => []
  end.

(** The events of a program, in order of delivery. *)
Definition events (ops : list window_op) : list SDL_Event := concat (delivered <$> ops).

(** The state an event assigns to scancode [k], to button [b]. *)
Definition key_event (k : Z) (ev : SDL_Event) : option KeyState :=
  match ev with
  | SDL_KEYDOWN scancode => if bool_decide (scancode = k) then Some JustPressed else None
  | SDL_KEYUP scancode => if bool_decide (scancode = k) then Some JustReleased else None
  | _ => None
  end.

Definition button_event (b : Z) (ev : SDL_Event) : option KeyState :=
  match ev with
  | SDL_MOUSEBUTTONDOWN button =>
      if bool_decide (Cxx.to_uint8 button = b) then Some JustPressed else None
  | SDL_MOUSEBUTTONUP button =>
      if bool_decide (Cxx.to_uint8 button = b) then Some JustReleased else None
  | _ => None
  end.

Definition is_wheel (ev : SDL_Event) : bool :=
  match ev with SDL_MOUSEWHEEL _ => true | _ => false end.

Section WindowPrograms.
Context `{Platform}.

Definition window_step (o : window_op) (w : Window.t) : GL Window.t :=
  match o with
  | DoFirstUpdate pending => Window.FirstUpdate pending w
  | DoSecondUpdate => mret (Window.SecondUpdate w)
  | DoUpdateDeltaTime => Window.UpdateDeltaTime w
  | DoSwapBuffer => Window.SwapBuffer w;; mret w
  | DoClearScreen bitField r g b a => Window.ClearScreen bitField r g b a w;; mret w
  | DoCloseWindow => mret (Window.CloseWindow w)
  | DoSetRelativeMouseMode v => Window.SetRelativeMouseMode v w;; mret w
  | DoCheckKeyUp key => mret (Window.CheckKeyUp key w).2
  | DoCheckKeyDown key => mret (Window.CheckKeyDown key w).2
  | DoCheckMouseButtonUp key => mret (Window.CheckMouseButtonUp key w).2
  | DoCheckMouseButtonDown key => mret (Window.CheckMouseButtonDown key w).2
  end.

Fixpoint window_run (ops : list window_op) (w : Window.t) : GL Window.t :=
  match ops with
  | [] => mret w
  | o :: rest => w' ← window_step o w; window_run rest w'
  end.

End WindowPrograms.

Inductive shader_op :=
| DoUse
| DoUnuse
| DoSetMat4 (name : string) (count : Z) (transpose : bool) (v : mat4)
| DoSetVec4 (name : string) (count : Z) (v : vec4)
| DoSetVec3 (name : string) (count : Z) (v : vec3)
| DoSetVec2 (name : string) (count : Z) (v : vec2)
| DoSetFloat (name : string) (v : FP.float)
| DoSetInt (name : string) (v : Z)
| DoSetBool (name : string) (v : bool).

(** The uniform an operation names. *)
Definition names (o : shader_op) : option string :=
  match o with
  | DoUse | DoUnuse => None
  | DoSetMat4 name _ _ _ | DoSetVec4 name _ _ | DoSetVec3 name _ _ | DoSetVec2 name _ _
  | DoSetFloat name _ | DoSetInt name _ | DoSetBool name _ => Some name
  end.

(** The uniform names the driver was asked about, in order. *)
Fixpoint queries (calls : list Call) : list string :=
  match calls with
  | [] => []
  | glGetUniformLocation _ name :: rest => name :: queries rest
  | _ :: rest => queries rest
  end.

Section ShaderPrograms.
Context `{Platform}.

Definition shader_step (o : shader_op) (s : Shader.t) : GL Shader.t :=
  match o with
  | DoUse => Shader.Use s;; mret s
  | DoUnuse => Shader.Unuse s;; mret s
  | DoSetMat4 name count transpose v => Shader.SetMat4 name count transpose v s
  | DoSetVec4 name count v => Shader.SetVec4 name count v s
  | DoSetVec3 name count v => Shader.SetVec3 name count v s
  | DoSetVec2 name count v => Shader.SetVec2 name count v s
  | DoSetFloat name v => Shader.SetFloat name v s
  | DoSetInt name v => Shader.SetInt name v s
  | DoSetBool name v => Shader.SetBool name v s
  end.

Fixpoint shader_run (ops : list shader_op) (s : Shader.t) : GL Shader.t :=
  match ops with
  | [] => mret s
  | o :: rest => s' ← shader_step o s; shader_run rest s'
  end.

End ShaderPrograms.

(** A vertex buffer, an index buffer, updated again and again. *)
Fixpoint vbo_updates (updates : list (list Vertex)) (b : VertexBufferObject.t)
  : GL VertexBufferObject.t :=
  match updates with
  | [] => mret b
  | vertices :: rest => b' ← VertexBufferObject.UpdateVBO vertices b; vbo_updates rest b'
  end.

Fixpoint ebo_updates (updates : list (list Z)) (b : ElementBufferObject.t)
  : GL ElementBufferObject.t :=
  match updates with
  | [] => mret b
  | indices :: rest => b' ← ElementBufferObject.UpdateVBO indices b; ebo_updates rest b'
  end.

(** The size of the store the driver holds for the buffer bound to
    [target] after [calls], in a program over one buffer: the size of the
    last [glBufferData] to that target. *)
Definition BufferTarget_eqb (a b : BufferTarget) : bool :=
  match a, b with
  | GL_ARRAY_BUFFER, GL_ARRAY_BUFFER
  | GL_ELEMENT_ARRAY_BUFFER, GL_ELEMENT_ARRAY_BUFFER => true
  | _, _ => false
  end.

Fixpoint allocated (target : BufferTarget) (calls : list Call) (before : option Z) : option Z :=
  match calls with
  | [] => before
  | glBufferData t size _ _ :: rest =>
      allocated target rest (if BufferTarget_eqb t target then Some size else before)
  | _ :: rest => allocated target rest before
  end.

(** The draw calls among [calls], in order. *)
Fixpoint draws (calls : list Call) : list Call :=
  match calls with
  | [] => []
  | glDrawElements mode count type :: rest => glDrawElements mode count type :: draws rest
  | glDrawArrays mode first count :: rest => glDrawArrays mode first count :: draws rest
  | _ :: rest => draws rest
  end.

(** A computation that dereferences a null pointer from every log, after
    a sequence of new calls that satisfies [P]. *)
Definition faults_with {A} (m : GL A) (P : list Call -> Prop) : Prop :=
  forall log, exists calls, m log = NullDereference (log ++ calls) /\ P calls.

(** A computation that returns normally from every log, with a result and
    a sequence of new calls that satisfy [P]. *)
Definition returns_with {A} (m : GL A) (P : A -> list Call -> Prop) : Prop :=
  forall log, exists a calls, m log = Normal a (log ++ calls) /\ P a calls.

(** A platform to run the code on: SDL2 has 512 scancodes; every call
    succeeds with handle 1, the drawable is 800 by 600, and the linked
    program has no active uniform (every location is the sentinel -1). *)
Definition sdl2 : Platform := {|
  SDL_NUM_SCANCODES := 512;
  returns := fun _ c => match c with glGetUniformLocation _ _ => -1 | _ => 1 end;
  returns2 := fun _ _ => (800, 600)
|}.

(** A window in the middle of a frame: scancode 4 and button 1 have just
    gone down, scancode 5 and button 3 have just come up. *)
Definition window_mid_frame : Window.t :=
  Window.mk 1 1 800 600 true false FP.d0 FP.d0 FP.f0 FP.f0 FP.f0 FP.f0 FP.f0 FP.f550
    (<[4 := JustPressed]> (<[5 := JustReleased]> (Window.released_upto 8 ∅)))
    (<[1 := JustPressed]> (<[3 := JustReleased]> (Window.released_upto 5 ∅))).

(** A window whose last frame took 0.1 s, with the accumulator at zero. *)
Definition window_tenth : Window.t :=
  Window.mk 1 1 800 600 true false
    (FP.ddiv (FP.double_of_int 1) (FP.double_of_int 10)) FP.d0
    FP.f0 FP.f0 FP.f0 FP.f0 FP.f0 FP.f550
    (Window.released_upto 8 ∅) (Window.released_upto 5 ∅).

(** A vertex at the origin, and a triangle of three of them. *)
Definition vertex0 : Vertex :=
  mk_Vertex (mk_vec3 FP.f0 FP.f0 FP.f0) (mk_vec3 FP.f1 FP.f1 FP.f1)
            (mk_vec3 FP.f0 FP.f0 FP.f1) (mk_vec2 FP.f0 FP.f0).
Definition triangle : list Vertex := [vertex0; vertex0; vertex0].

(** A triangle without indices, as [Renderable(vertices, vboUsage)] leaves
    it (array 1, buffer 2), an object that holds it, and a shader. *)
Definition plain_triangle : Renderable.t :=
  Renderable.mk (Some (VertexArrayObject.mk 1))
                (Some (VertexBufferObject.mk 2 BufferUsage.StaticDraw 132 3))
                None triangle [].

Definition origin : Transform :=
  mk_Transform (mk_vec3 FP.f0 FP.f0 FP.f0) (mk_vec3 FP.f1 FP.f1 FP.f1) (mk_vec3 FP.f0 FP.f0 FP.f0).

Definition triangle_object : GameObject.t :=
  GameObject.SetRenderable (Some plain_triangle) (GameObject.GameObject origin).

Definition flat_shader : Shader.t := Shader.mk 3 ∅.

(** A stand-in for GLM that leaves the matrix alone. *)
Definition glm_identity : GLM := {|
  glm_translate := fun m _ => m;
  glm_scale := fun m _ => m;
  glm_rotate := fun m _ _ => m;
  glm_radians := fun x => x
|}.

(** The double nearest to 0.1 and the floats 0.1f, 55.0f, -1.0f, 1.0f. *)
Definition d_0_1 : FP.double := FP.ddiv (FP.double_of_int 1) (FP.double_of_int 10).
Definition f_0_1 : FP.float := FP.float_of_double d_0_1.
Definition f55 : FP.float := FP.float_of_int 55.
Definition f_minus_1 : FP.float := FP.float_of_int (-1).

(** ** The driver's view of the buffers

    What the calls of a log amount to in the driver: the buffer bound to
    [GL_ARRAY_BUFFER], the vertex array bound and the buffer each vertex
    array has at [GL_ELEMENT_ARRAY_BUFFER] (that binding belongs to the
    vertex array), and the size of the store each buffer name has.
    [glBufferData] gives the buffer bound to its target a new store of the
    size passed, and is an error that changes nothing when no buffer is
    bound there; [glBufferSubData] writes into the store that is there (or
    is an error when the range does not fit) and leaves its size alone;
    [glDeleteBuffers] frees the name with its store and its bindings. *)
Record driver_buffers := mk_driver_buffers {
  bound_array : Z;
  bound_vertex_array : Z;
  element_arrays : gmap Z Z;
  stores : gmap Z Z
}.

Definition bound_element_array (d : driver_buffers) : Z :=
  default 0 (element_arrays d !! bound_vertex_array d).

Definition bound_to (target : BufferTarget) (d : driver_buffers) : Z :=
  match target with
  | GL_ARRAY_BUFFER => bound_array d
  | GL_ELEMENT_ARRAY_BUFFER => bound_element_array d
  end.

(** A binding after the name [buffer] is deleted. *)
Definition unbind (buffer bound : Z) : Z :=
  if bool_decide (bound = buffer) then 0 else bound.

Definition driver_call (d : driver_buffers) (c : Call) : driver_buffers :=
  match c with
  | glBindBuffer GL_ARRAY_BUFFER buffer =>
      mk_driver_buffers buffer (bound_vertex_array d) (element_arrays d) (stores d)
  | glBindBuffer GL_ELEMENT_ARRAY_BUFFER buffer =>
      mk_driver_buffers (bound_array d) (bound_vertex_array d)
                        (<[bound_vertex_array d := buffer]> (element_arrays d)) (stores d)
  | glBindVertexArray array =>
      mk_driver_buffers (bound_array d) array (element_arrays d) (stores d)
  | glDeleteVertexArrays array =>
      mk_driver_buffers (bound_array d) (unbind array (bound_vertex_array d))
                        (delete array (element_arrays d)) (stores d)
  | glBufferData target size _ _ =>
      if bound_to target d =? 0 then d
      else mk_driver_buffers (bound_array d) (bound_vertex_array d) (element_arrays d)
                             (<[bound_to target d := size]> (stores d))
  | glDeleteBuffers buffer =>
      mk_driver_buffers (unbind buffer (bound_array d)) (bound_vertex_array d)
                        (unbind buffer <$> element_arrays d)
                        (delete buffer (stores d))
  | _ => d
  end.

Definition driver_after (log : list Call) : driver_buffers :=
  foldl driver_call (mk_driver_buffers 0 0 ∅ ∅) log.

(** The byte size currently allocated for [buffer], after [log]. *)
Definition allocated_size (log : list Call) (buffer : Z) : option Z :=
  stores (driver_after log) !! buffer.

(** A driver that hands out a new name at every call. *)
Definition counting_driver : Platform := {|
  SDL_NUM_SCANCODES := 512;
  returns := fun log _ => Z.of_nat (length log) + 1;
  returns2 := fun _ _ => (800, 600)
|}.

(** Two vertex buffers built one after the other from an empty log, three
    vertices in the first and one in the second: the buffers and the log. *)
Definition two_buffers : outcome (VertexBufferObject.t * VertexBufferObject.t) :=
  (a ← @VertexBufferObject.VertexBufferObject counting_driver triangle BufferUsage.StaticDraw;
   b ← @VertexBufferObject.VertexBufferObject counting_driver [vertex0] BufferUsage.DynamicDraw;
   mret (a, b)) [].

Definition three_vertex_buffer : VertexBufferObject.t :=
  VertexBufferObject.mk 1 BufferUsage.StaticDraw 132 3.
Definition one_vertex_buffer : VertexBufferObject.t :=
  VertexBufferObject.mk 4 BufferUsage.DynamicDraw 44 1.
Definition two_buffers_log : list Call :=
  [glGenBuffers; glBindBuffer GL_ARRAY_BUFFER 1;
   glBufferData GL_ARRAY_BUFFER 132 (VertexData triangle) BufferUsage.StaticDraw;
   glGenBuffers; glBindBuffer GL_ARRAY_BUFFER 4;
   glBufferData GL_ARRAY_BUFFER 44 (VertexData [vertex0]) BufferUsage.DynamicDraw].

(** ** Facts about the effect monad *)

Lemma returns_with_ret {A} (a : A) (P : A -> list Call -> Prop) :
  P a [] -> returns_with (mret a) P.
Proof.
  intros HP log. exists a, []. rewrite app_nil_r. split; [reflexivity | exact HP].
Qed.

Lemma returns_with_bind {A B} (m : GL A) (k : A -> GL B)
    (P : A -> list Call -> Prop) (Q : B -> list Call -> Prop) :
  returns_with m P ->
  (forall a calls, P a calls ->
     returns_with (k a) (fun b calls' => Q b (calls ++ calls'))) ->
  returns_with (m ≫= k) Q.
Proof.
  intros Hm Hk log.
  destruct (Hm log) as (a & calls & Em & HP).
  destruct (Hk a calls HP (log ++ calls)) as (b & calls' & Ek & HQ).
  exists b, (calls ++ calls').
  unfold mbind, GL_bind, bind. rewrite Em, Ek, <- app_assoc. auto.
Qed.

Lemma returns_with_call (c : Call) (P : unit -> list Call -> Prop) :
  P tt [c] -> returns_with (call c) P.
Proof. intros HP log. exists tt, [c]. auto. Qed.

Lemma returns_with_ask `{Platform} (c : Call) (P : Z -> list Call -> Prop) :
  (forall z, P z [c]) -> returns_with (ask c) P.
Proof. intros HP log. exists (returns log c), [c]. auto. Qed.

Lemma returns_with_weaken {A} (m : GL A) (P Q : A -> list Call -> Prop) :
  returns_with m P -> (forall a calls, P a calls -> Q a calls) -> returns_with m Q.
Proof.
  intros Hm HPQ log. destruct (Hm log) as (a & calls & E & HP). eauto.
Qed.

(** ** Facts about [Window] *)

Lemma decay_cases (s : KeyState) :
  Window.decay s = match s with
                   | JustPressed | Down => Down
                   | JustReleased | Released => Released
                   end.
Proof. destruct s; reflexivity. Qed.

Lemma decay_idempotent (s : KeyState) : Window.decay (Window.decay s) = Window.decay s.
Proof. destruct s; reflexivity. Qed.

Lemma SecondUpdate_Keys (w : Window.t) (k : Z) :
  Window.m_Keys (Window.SecondUpdate w) !! k = Window.decay <$> Window.m_Keys w !! k.
Proof. destruct w; simpl. apply lookup_fmap. Qed.

Lemma SecondUpdate_MouseButtons (w : Window.t) (b : Z) :
  Window.m_MouseButtons (Window.SecondUpdate w) !! b
  = Window.decay <$> Window.m_MouseButtons w !! b.
Proof. destruct w; simpl. apply lookup_fmap. Qed.

Lemma map_index_keeps (m : gmap Z KeyState) (k k' : Z) (s : KeyState) :
  m !! k = Some s -> (map_index m k').2 !! k = Some s.
Proof.
  intros Hk. unfold map_index. destruct (m !! k') eqn:Ek'; simpl; [exact Hk |].
  rewrite lookup_insert_ne; [exact Hk | congruence].
Qed.

Lemma map_index_present (m : gmap Z KeyState) (k : Z) (s : KeyState) :
  m !! k = Some s -> map_index m k = (s, m).
Proof. intros Hk. unfold map_index. rewrite Hk. reflexivity. Qed.

Lemma map_index_absent (m : gmap Z KeyState) (k : Z) :
  m !! k = None -> map_index m k = (JustPressed, <[k := JustPressed]> m).
Proof. intros Hk. unfold map_index. rewrite Hk. reflexivity. Qed.

Lemma released_upto_S (n : nat) (m : gmap Z KeyState) :
  Window.released_upto (S n) m = <[Z.of_nat n := Released]> (Window.released_upto n m).
Proof. unfold Window.released_upto. rewrite seq_S, foldl_app. reflexivity. Qed.

Lemma released_upto_lookup (n : nat) (m : gmap Z KeyState) (k : Z) :
  Window.released_upto n m !! k
  = if bool_decide (0 <= k < Z.of_nat n) then Some Released else m !! k.
Proof.
  induction n as [|n IH].
  - rewrite bool_decide_eq_false_2 by lia. reflexivity.
  - rewrite released_upto_S. destruct (decide (Z.of_nat n = k)) as [E|NE].
    + subst k. rewrite lookup_insert_eq.
      rewrite bool_decide_eq_true_2 by lia. reflexivity.
    + rewrite lookup_insert_ne by exact NE. rewrite IH.
      repeat case_bool_decide; try reflexivity; lia.
Qed.

(** Straight-line code: unfold the monad and read off result and calls. *)
Ltac gl_unfold :=
  cbv beta iota zeta delta
    [mbind GL_bind bind mret GL_ret ret call ask ask2 deref Error].

Ltac gl_exec :=
  let log := fresh "log" in
  intros log; gl_unfold;
  first [ exists_nil_calls log
        | eexists _, _; split; [rewrite <- ?app_assoc; reflexivity |] ]
with exists_nil_calls log :=
  eexists _, []; split; [rewrite (app_nil_r log); reflexivity |].

Ltac gl_pure :=
  repeat match goal with
         | |- returns_with (if ?c then _ else _) _ => destruct c
         | |- returns_with (mret _) _ => apply returns_with_ret
         end.

(** Every event is handled without a fault; what it does to the two maps
    and to the scalar members. *)
Lemma handle_event_returns (ev : SDL_Event) (w : Window.t) :
  returns_with (Window.handle_event ev w) (fun w' _ =>
    (forall k, Window.m_Keys w' !! k
               = match key_event k ev with
                 | Some s => Some s
                 | None => Window.m_Keys w !! k
                 end) /\
    (forall b, Window.m_MouseButtons w' !! b
               = match button_event b ev with
                 | Some s => Some s
                 | None => Window.m_MouseButtons w !! b
                 end) /\
    (is_wheel ev = false -> Window.m_ScrollDistance w' = Window.m_ScrollDistance w) /\
    Window.m_ZoomSpeed w' = Window.m_ZoomSpeed w /\
    Window.m_DeltaTime w' = Window.m_DeltaTime w).
Proof.
  destruct ev as [|sc|sc|bt|bt|e d1 d2|x y xr yr|py|ty]; simpl.
  - gl_pure. auto.
  - gl_pure. simpl. repeat split; auto. intros k. case_bool_decide as E.
    + subst. apply lookup_insert_eq.
    + apply lookup_insert_ne. exact E.
  - gl_pure. simpl. repeat split; auto. intros k. case_bool_decide as E.
    + subst. apply lookup_insert_eq.
    + apply lookup_insert_ne. exact E.
  - gl_pure. simpl. repeat split; auto. intros k. case_bool_decide as E.
    + subst. apply lookup_insert_eq.
    + apply lookup_insert_ne. exact E.
  - gl_pure. simpl. repeat split; auto. intros k. case_bool_decide as E.
    + subst. apply lookup_insert_eq.
    + apply lookup_insert_ne. exact E.
  - destruct e; [| gl_pure; auto].
    gl_exec. simpl. auto.
  - gl_pure. simpl. auto.
  - gl_pure; simpl; repeat split; auto; discriminate.
  - gl_pure. auto.
Qed.

Section WindowInvariants.
Context `{Platform}.

(** A property of the window that every member call keeps is kept by
    every program, as long as the events delivered are among those that
    keep it. *)
Lemma window_run_invariant (Inv : Window.t -> Prop) (E : SDL_Event -> Prop) :
  (forall ev w, E ev -> Inv w ->
     returns_with (Window.handle_event ev w) (fun w' _ => Inv w')) ->
  (forall w, Inv w -> Inv (Window.SecondUpdate w)) ->
  (forall dt last w, Inv w -> Inv (Window.set_time dt last w)) ->
  (forall b w, Inv w -> Inv (Window.set_IsOpen b w)) ->
  (forall k w, Inv w -> Inv (Window.set_Keys (map_index (Window.m_Keys w) k).2 w)) ->
  (forall b w, Inv w ->
     Inv (Window.set_MouseButtons (map_index (Window.m_MouseButtons w) b).2 w)) ->
  forall ops, Forall E (events ops) ->
  forall w, Inv w -> returns_with (window_run ops w) (fun w' _ => Inv w').
Proof.
  intros Hev Hsecond Htime Hopen Hkeys Hbuttons.
  assert (Hfirst : forall pending, Forall E pending -> forall w, Inv w ->
            returns_with (Window.FirstUpdate pending w) (fun w' _ => Inv w')).
  { induction pending as [|ev rest IH]; intros HE w Hw; simpl.
    - gl_pure. exact Hw.
    - apply Forall_cons in HE as [Hhd Htl].
      eapply returns_with_bind; [apply (Hev ev w Hhd Hw) |].
      intros w' ? Hw'. simpl. apply IH; assumption. }
  induction ops as [|o rest IH]; intros HE w Hw; simpl.
  - gl_pure. exact Hw.
  - unfold events in HE. rewrite fmap_cons in HE. simpl in HE.
    apply Forall_app in HE as [Ho Hrest].
    eapply returns_with_bind with (P := fun w' _ => Inv w').
    + destruct o; simpl.
      * apply Hfirst; assumption.
      * gl_pure. auto.
      * unfold Window.UpdateDeltaTime. gl_exec. apply Htime, Hw.
      * unfold Window.SwapBuffer. gl_exec. exact Hw.
      * unfold Window.ClearScreen. gl_exec. exact Hw.
      * gl_pure. apply Hopen, Hw.
      * unfold Window.SetRelativeMouseMode. gl_exec. exact Hw.
      * gl_pure. unfold Window.CheckKeyUp.
        destruct (map_index (Window.m_Keys w) key) eqn:E'. simpl.
        specialize (Hkeys key w Hw). rewrite E' in Hkeys. exact Hkeys.
      * gl_pure. unfold Window.CheckKeyDown.
        destruct (map_index (Window.m_Keys w) key) eqn:E'. simpl.
        specialize (Hkeys key w Hw). rewrite E' in Hkeys. exact Hkeys.
      * gl_pure. unfold Window.CheckMouseButtonUp.
        destruct (map_index (Window.m_MouseButtons w) (Cxx.to_uint8 key)) eqn:E'. simpl.
        specialize (Hbuttons (Cxx.to_uint8 key) w Hw). rewrite E' in Hbuttons. exact Hbuttons.
      * gl_pure. unfold Window.CheckMouseButtonDown.
        destruct (map_index (Window.m_MouseButtons w) (Cxx.to_uint8 key)) eqn:E'. simpl.
        specialize (Hbuttons (Cxx.to_uint8 key) w Hw). rewrite E' in Hbuttons. exact Hbuttons.
    + intros w' ? Hw'. simpl. apply IH; assumption.
Qed.

End WindowInvariants.

Section WindowStateMachine.
Context `{Platform}.

(** A set [P] of states that [SecondUpdate] does not leave is not left
    by scancode [k] while every event for [k] assigns a state in [P]. *)
Lemma key_state_invariant (P : KeyState -> Prop) (k : Z) :
  (forall s, P s -> P (Window.decay s)) ->
  forall ops,
    Forall (fun ev => forall s, key_event k ev = Some s -> P s) (events ops) ->
    forall w, (exists s, Window.m_Keys w !! k = Some s /\ P s) ->
    returns_with (window_run ops w)
      (fun w' _ => exists s, Window.m_Keys w' !! k = Some s /\ P s).
Proof.
  intros Hdecay.
  apply (window_run_invariant
           (fun w => exists s, Window.m_Keys w !! k = Some s /\ P s)).
  - intros ev w Hev (s & Hs & HP).
    eapply returns_with_weaken; [apply handle_event_returns |].
    intros w' _ (Hk & _). rewrite Hk.
    destruct (key_event k ev) as [s'|]; eauto.
  - intros w (s & Hs & HP). exists (Window.decay s).
    rewrite SecondUpdate_Keys, Hs. auto.
  - intros dt last w Hw. exact Hw.
  - intros b w Hw. exact Hw.
  - intros k' w (s & Hs & HP). exists s. split; [| exact HP].
    destruct w; simpl in *. apply map_index_keeps, Hs.
  - intros b w Hw. destruct w; exact Hw.
Qed.

Lemma button_state_invariant (P : KeyState -> Prop) (b : Z) :
  (forall s, P s -> P (Window.decay s)) ->
  forall ops,
    Forall (fun ev => forall s, button_event b ev = Some s -> P s) (events ops) ->
    forall w, (exists s, Window.m_MouseButtons w !! b = Some s /\ P s) ->
    returns_with (window_run ops w)
      (fun w' _ => exists s, Window.m_MouseButtons w' !! b = Some s /\ P s).
Proof.
  intros Hdecay.
  apply (window_run_invariant
           (fun w => exists s, Window.m_MouseButtons w !! b = Some s /\ P s)).
  - intros ev w Hev (s & Hs & HP).
    eapply returns_with_weaken; [apply handle_event_returns |].
    intros w' _ (_ & Hb & _). rewrite Hb.
    destruct (button_event b ev) as [s'|]; eauto.
  - intros w (s & Hs & HP). exists (Window.decay s).
    rewrite SecondUpdate_MouseButtons, Hs. auto.
  - intros dt last w Hw. exact Hw.
  - intros o w Hw. exact Hw.
  - intros k w Hw. destruct w; exact Hw.
  - intros b' w (s & Hs & HP). exists s. split; [| exact HP].
    destruct w; simpl in *. apply map_index_keeps, Hs.
Qed.

(** Only wheel events move the scroll accumulator. *)
Lemma scroll_invariant (d : FP.float) (ops : list window_op) :
  Forall (fun ev => is_wheel ev = false) (events ops) ->
  forall w, Window.m_ScrollDistance w = d ->
  returns_with (window_run ops w) (fun w' _ => Window.m_ScrollDistance w' = d).
Proof.
  apply (window_run_invariant (fun w => Window.m_ScrollDistance w = d)).
  - intros ev w Hev Hw.
    eapply returns_with_weaken; [apply handle_event_returns |].
    intros w' _ (_ & _ & Hs & _). rewrite Hs; auto.
  - intros w Hw. destruct w; exact Hw.
  - intros dt last w Hw. exact Hw.
  - intros o w Hw. exact Hw.
  - intros k w Hw. destruct w; exact Hw.
  - intros b w Hw. destruct w; exact Hw.
Qed.

Lemma iter_SecondUpdate_Keys (n : nat) (w : Window.t) (k : Z) :
  Window.m_Keys (Nat.iter (S n) Window.SecondUpdate w) !! k
  = Window.decay <$> Window.m_Keys w !! k.
Proof.
  induction n as [|n IH].
  - apply SecondUpdate_Keys.
  - change (Nat.iter (S (S n)) Window.SecondUpdate w)
      with (Window.SecondUpdate (Nat.iter (S n) Window.SecondUpdate w)).
    rewrite SecondUpdate_Keys, IH.
    destruct (Window.m_Keys w !! k); simpl; [rewrite decay_idempotent |]; reflexivity.
Qed.

Lemma iter_SecondUpdate_MouseButtons (n : nat) (w : Window.t) (b : Z) :
  Window.m_MouseButtons (Nat.iter (S n) Window.SecondUpdate w) !! b
  = Window.decay <$> Window.m_MouseButtons w !! b.
Proof.
  induction n as [|n IH].
  - apply SecondUpdate_MouseButtons.
  - change (Nat.iter (S (S n)) Window.SecondUpdate w)
      with (Window.SecondUpdate (Nat.iter (S n) Window.SecondUpdate w)).
    rewrite SecondUpdate_MouseButtons, IH.
    destruct (Window.m_MouseButtons w !! b); simpl; [rewrite decay_idempotent |]; reflexivity.
Qed.

End WindowStateMachine.

(** C1. [SecondUpdate] (EndFrame) turns every JustPressed key and mouse
    button into Down by that one call; the state is then Down after any
    number of further [SecondUpdate] calls, stays Down through every
    program that delivers no event for the code, and is Down again after
    each later [SecondUpdate] as long as no release event for the code is
    delivered.  Every JustReleased key and mouse button is Released after
    one [SecondUpdate]. *)
Theorem SecondUpdate_settles_transients `{Platform} (w : Window.t) (code : Z) :
  (Window.m_Keys w !! code = Some JustPressed ->
     Window.m_Keys (Window.SecondUpdate w) !! code = Some Down /\
     (Window.CheckKeyDown code (Window.SecondUpdate w)).1 = true /\
     (forall n, Window.m_Keys (Nat.iter n Window.SecondUpdate (Window.SecondUpdate w)) !! code
                = Some Down) /\
     (forall ops, Forall (fun ev => key_event code ev = None) (events ops) ->
        returns_with (window_run ops (Window.SecondUpdate w))
          (fun w' _ => Window.m_Keys w' !! code = Some Down)) /\
     (forall ops, Forall (fun ev => key_event code ev <> Some JustReleased) (events ops) ->
        returns_with (window_run ops (Window.SecondUpdate w))
          (fun w' _ => Window.m_Keys (Window.SecondUpdate w') !! code = Some Down))) /\
  (Window.m_MouseButtons w !! code = Some JustPressed ->
     Window.m_MouseButtons (Window.SecondUpdate w) !! code = Some Down /\
     (forall n, Window.m_MouseButtons (Nat.iter n Window.SecondUpdate (Window.SecondUpdate w)) !! code
                = Some Down) /\
     (forall ops, Forall (fun ev => button_event code ev = None) (events ops) ->
        returns_with (window_run ops (Window.SecondUpdate w))
          (fun w' _ => Window.m_MouseButtons w' !! code = Some Down)) /\
     (forall ops, Forall (fun ev => button_event code ev <> Some JustReleased) (events ops) ->
        returns_with (window_run ops (Window.SecondUpdate w))
          (fun w' _ => Window.m_MouseButtons (Window.SecondUpdate w') !! code = Some Down))) /\
  (Window.m_Keys w !! code = Some JustReleased ->
     Window.m_Keys (Window.SecondUpdate w) !! code = Some Released /\
     (Window.CheckKeyUp code w).1 = true /\
     (Window.CheckKeyUp code (Window.SecondUpdate w)).1 = false) /\
  (Window.m_MouseButtons w !! code = Some JustReleased ->
     Window.m_MouseButtons (Window.SecondUpdate w) !! code = Some Released).
Proof.
  split; [| split; [| split]].
  - intros Hk.
    assert (Hd : Window.m_Keys (Window.SecondUpdate w) !! code = Some Down)
      by (rewrite SecondUpdate_Keys, Hk; reflexivity).
    split; [exact Hd |]. split; [| split; [| split]].
    + unfold Window.CheckKeyDown. rewrite (map_index_present _ _ _ Hd). reflexivity.
    + intros [|n]; [exact Hd |].
      rewrite iter_SecondUpdate_Keys, Hd. reflexivity.
    + intros ops Hops.
      eapply returns_with_weaken.
      * apply (key_state_invariant (fun s => s = Down) code).
        -- intros s ->. reflexivity.
        -- eapply Forall_impl; [exact Hops |]. intros ev E s Hs. congruence.
        -- exists Down. auto.
      * intros w' _ (s & Hs & ->). exact Hs.
    + intros ops Hops.
      eapply returns_with_weaken.
      * apply (key_state_invariant (fun s => s = Down \/ s = JustPressed) code).
        -- intros s [-> | ->]; left; reflexivity.
        -- eapply Forall_impl; [exact Hops |]. intros ev E s Hs.
           destruct ev; simpl in *; try discriminate;
             case_bool_decide; try discriminate; inversion Hs; subst; auto.
           congruence.
        -- exists Down. auto.
      * intros w' _ (s & Hs & HP). rewrite SecondUpdate_Keys, Hs.
        destruct HP as [-> | ->]; reflexivity.
  - intros Hk.
    assert (Hd : Window.m_MouseButtons (Window.SecondUpdate w) !! code = Some Down)
      by (rewrite SecondUpdate_MouseButtons, Hk; reflexivity).
    split; [exact Hd |]. split; [| split].
    + intros [|n]; [exact Hd |].
      rewrite iter_SecondUpdate_MouseButtons, Hd. reflexivity.
    + intros ops Hops.
      eapply returns_with_weaken.
      * apply (button_state_invariant (fun s => s = Down) code).
        -- intros s ->. reflexivity.
        -- eapply Forall_impl; [exact Hops |]. intros ev E s Hs. congruence.
        -- exists Down. auto.
      * intros w' _ (s & Hs & ->). exact Hs.
    + intros ops Hops.
      eapply returns_with_weaken.
      * apply (button_state_invariant (fun s => s = Down \/ s = JustPressed) code).
        -- intros s [-> | ->]; left; reflexivity.
        -- eapply Forall_impl; [exact Hops |]. intros ev E s Hs.
           destruct ev; simpl in *; try discriminate;
             case_bool_decide; try discriminate; inversion Hs; subst; auto.
           congruence.
        -- exists Down. auto.
      * intros w' _ (s & Hs & HP). rewrite SecondUpdate_MouseButtons, Hs.
        destruct HP as [-> | ->]; reflexivity.
  - intros Hk.
    assert (Hr : Window.m_Keys (Window.SecondUpdate w) !! code = Some Released)
      by (rewrite SecondUpdate_Keys, Hk; reflexivity).
    split; [exact Hr |]. split.
    + unfold Window.CheckKeyUp. rewrite (map_index_present _ _ _ Hk). reflexivity.
    + unfold Window.CheckKeyUp. rewrite (map_index_present _ _ _ Hr). reflexivity.
  - intros Hk. rewrite SecondUpdate_MouseButtons, Hk. reflexivity.
Qed.

Lemma SecondUpdate_settles_transients_witness :
  (Window.m_Keys window_mid_frame !! 4 = Some JustPressed /\
   Window.m_Keys (Window.SecondUpdate window_mid_frame) !! 4 = Some Down /\
   returns_with
     (@window_run sdl2
        [DoFirstUpdate [SDL_KEYDOWN 4; SDL_KEYUP 7]; DoCheckKeyDown 4; DoSecondUpdate;
         DoFirstUpdate [SDL_MOUSEMOTION 3 4 1 1]]
        (Window.SecondUpdate window_mid_frame))
     (fun w' _ => Window.m_Keys (Window.SecondUpdate w') !! 4 = Some Down)) /\
  (Window.m_MouseButtons window_mid_frame !! 1 = Some JustPressed /\
   Window.m_MouseButtons (Window.SecondUpdate window_mid_frame) !! 1 = Some Down /\
   returns_with
     (@window_run sdl2
        [DoFirstUpdate [SDL_MOUSEBUTTONDOWN 2]; DoSecondUpdate; DoCheckMouseButtonUp 1]
        (Window.SecondUpdate window_mid_frame))
     (fun w' _ => Window.m_MouseButtons w' !! 1 = Some Down)) /\
  (Window.m_Keys window_mid_frame !! 5 = Some JustReleased /\
   Window.m_Keys (Window.SecondUpdate window_mid_frame) !! 5 = Some Released) /\
  (Window.m_MouseButtons window_mid_frame !! 3 = Some JustReleased /\
   Window.m_MouseButtons (Window.SecondUpdate window_mid_frame) !! 3 = Some Released).
Proof.
  assert (K4 : Window.m_Keys window_mid_frame !! 4 = Some JustPressed) by reflexivity.
  assert (B1 : Window.m_MouseButtons window_mid_frame !! 1 = Some JustPressed) by reflexivity.
  assert (K5 : Window.m_Keys window_mid_frame !! 5 = Some JustReleased) by reflexivity.
  assert (B3 : Window.m_MouseButtons window_mid_frame !! 3 = Some JustReleased) by reflexivity.
  destruct (@SecondUpdate_settles_transients sdl2 window_mid_frame 4) as (T4 & _).
  destruct (@SecondUpdate_settles_transients sdl2 window_mid_frame 1) as (_ & T1 & _).
  destruct (@SecondUpdate_settles_transients sdl2 window_mid_frame 5) as (_ & _ & T5 & _).
  destruct (@SecondUpdate_settles_transients sdl2 window_mid_frame 3) as (_ & _ & _ & T3).
  destruct (T4 K4) as (T4a & _ & _ & _ & T4b).
  destruct (T1 B1) as (T1a & _ & T1b & _).
  destruct (T5 K5) as (T5a & _).
  split; [| split; [| split]].
  - split; [exact K4 |]. split; [exact T4a |].
    apply T4b. repeat constructor; discriminate.
  - split; [exact B1 |]. split; [exact T1a |].
    apply T1b. repeat constructor.
  - split; [exact K5 | exact T5a].
  - split; [exact B3 | apply T3, B3].
Defined.

(** What the constructor leaves in the two maps, whenever it returns. *)
Lemma Window_constructed `{Platform} (w h : Z) (title : string) (major minor flags : Z)
    (log log' : list Call) (w0 : Window.t) :
  Window.Window w h title major minor flags log = Normal w0 log' ->
  Window.m_Keys w0 = Window.released_upto SDL_NUM_SCANCODES ∅ /\
  Window.m_MouseButtons w0 = Window.released_upto 5 ∅.
Proof.
  unfold Window.Window. gl_unfold.
  destruct (_ <? 0); [discriminate |].
  destruct (_ =? 0); [discriminate |].
  destruct (_ =? 0); [discriminate |].
  intros E. inversion E; subst; clear E. simpl. auto.
Qed.

(** The codes the constructor initialises read as Released, whatever the
    application does, until an event for them is delivered. *)
Lemma initialised_codes_stay_Released `{Platform} (w h : Z) (title : string)
    (major minor flags : Z) (log log' : list Call) (w0 : Window.t) (ops : list window_op) :
  Window.Window w h title major minor flags log = Normal w0 log' ->
  (forall k, 0 <= k < Z.of_nat SDL_NUM_SCANCODES ->
     Forall (fun ev => key_event k ev = None) (events ops) ->
     returns_with (window_run ops w0)
       (fun w' _ => (Window.CheckKeyUp k w').1 = false /\
                    (Window.CheckKeyDown k w').1 = false)) /\
  (forall b, 0 <= Cxx.to_uint8 b < 5 ->
     Forall (fun ev => button_event (Cxx.to_uint8 b) ev = None) (events ops) ->
     returns_with (window_run ops w0)
       (fun w' _ => (Window.CheckMouseButtonUp b w').1 = false /\
                    (Window.CheckMouseButtonDown b w').1 = false)).
Proof.
  intros Hnew. destruct (Window_constructed _ _ _ _ _ _ _ _ _ Hnew) as [HK HB].
  split.
  - intros k Hk Hops. eapply returns_with_weaken.
    + apply (key_state_invariant (fun s => s = Released) k).
      * intros s ->. reflexivity.
      * eapply Forall_impl; [exact Hops |]. intros ev E s Hs. congruence.
      * exists Released. split; [| reflexivity].
        rewrite HK, released_upto_lookup, bool_decide_eq_true_2 by lia. reflexivity.
    + intros w' _ (s & Hs & ->).
      unfold Window.CheckKeyUp, Window.CheckKeyDown.
      rewrite (map_index_present _ _ _ Hs). auto.
  - intros b Hb Hops. eapply returns_with_weaken.
    + apply (button_state_invariant (fun s => s = Released) (Cxx.to_uint8 b)).
      * intros s ->. reflexivity.
      * eapply Forall_impl; [exact Hops |]. intros ev E s Hs. congruence.
      * exists Released. split; [| reflexivity].
        rewrite HB, released_upto_lookup, bool_decide_eq_true_2 by lia. reflexivity.
    + intros w' _ (s & Hs & ->).
      unfold Window.CheckMouseButtonUp, Window.CheckMouseButtonDown.
      rewrite (map_index_present _ _ _ Hs). auto.
Qed.

(** C2. A button code that no event has touched does not always read as
    Released.  For the codes the constructor does not initialise (5,
    [SDL_BUTTON_X2], and above), on a fresh window and with no event ever
    delivered, [CheckMouseButtonDown] answers false once (and inserts the
    zero state JustPressed), and after one [SecondUpdate] it answers
    true. *)
Theorem uninitialised_button_reads_Down `{Platform} (w h : Z) (title : string)
    (major minor flags : Z) (log log' : list Call) (w0 : Window.t) (key : Z) :
  Window.Window w h title major minor flags log = Normal w0 log' ->
  5 <= Cxx.to_uint8 key ->
  Window.m_MouseButtons w0 !! Cxx.to_uint8 key = None /\
  (Window.CheckMouseButtonDown key w0).1 = false /\
  (Window.CheckMouseButtonDown key
     (Window.SecondUpdate (Window.CheckMouseButtonDown key w0).2)).1 = true /\
  (Window.CheckMouseButtonDown key
     (Window.SecondUpdate (Window.CheckMouseButtonUp key w0).2)).1 = true.
Proof.
  intros Hnew Hkey. destruct (Window_constructed _ _ _ _ _ _ _ _ _ Hnew) as [_ HB].
  assert (Hnone : Window.m_MouseButtons w0 !! Cxx.to_uint8 key = None).
  { rewrite HB, released_upto_lookup, bool_decide_eq_false_2 by lia. apply lookup_empty. }
  assert (Hdown : Window.CheckMouseButtonDown key w0
                  = (false, Window.set_MouseButtons
                              (<[Cxx.to_uint8 key := JustPressed]> (Window.m_MouseButtons w0)) w0)).
  { unfold Window.CheckMouseButtonDown. rewrite (map_index_absent _ _ Hnone). reflexivity. }
  assert (Hup : Window.CheckMouseButtonUp key w0
                = (false, Window.set_MouseButtons
                            (<[Cxx.to_uint8 key := JustPressed]> (Window.m_MouseButtons w0)) w0)).
  { unfold Window.CheckMouseButtonUp. rewrite (map_index_absent _ _ Hnone). reflexivity. }
  assert (Hd : Window.m_MouseButtons
                 (Window.SecondUpdate
                    (Window.set_MouseButtons
                       (<[Cxx.to_uint8 key := JustPressed]> (Window.m_MouseButtons w0)) w0))
               !! Cxx.to_uint8 key = Some Down).
  { rewrite SecondUpdate_MouseButtons. destruct w0; simpl.
    rewrite lookup_insert_eq. reflexivity. }
  rewrite Hdown, Hup. cbn [fst snd]. unfold Window.CheckMouseButtonDown.
  rewrite (map_index_present _ _ _ Hd). auto.
Qed.

Lemma uninitialised_button_reads_Down_witness :
  exists w0 log',
    @Window.Window sdl2 800 600 "demo" 4 5 38 [] = Normal w0 log' /\
    5 <= Cxx.to_uint8 5 /\
    (Window.CheckMouseButtonDown 5 w0).1 = false /\
    (Window.CheckMouseButtonDown 5
       (Window.SecondUpdate (Window.CheckMouseButtonDown 5 w0).2)).1 = true.
Proof.
  assert (H5 : 5 <= Cxx.to_uint8 5) by (vm_compute; discriminate).
  pose proof (fun w0 log' E =>
                @uninitialised_button_reads_Down sdl2 800 600 "demo" 4 5 38 [] log' w0 5 E H5)
    as T.
  eexists _, _. split; [reflexivity |]. split; [exact H5 |].
  destruct (T _ _ eq_refl) as (_ & Hfirst & Hsecond & _).
  split; [exact Hfirst | exact Hsecond].
Defined.

Lemma flt_zero_not_fgt (y : FP.float) :
  FP.flt y (FP.float_of_int 0) = true -> FP.fgt y (FP.float_of_int 0) = false.
Proof. destruct y as [[|]|[|]| |[|] m e]; simpl; intros E; (discriminate || reflexivity). Qed.

Lemma FirstUpdate_wheel (preciseY : FP.float) (w : Window.t) (log : list Call) :
  Window.FirstUpdate [SDL_MOUSEWHEEL preciseY] w log
  = Normal
      (if FP.fgt preciseY (FP.float_of_int 0) then
         Window.set_ScrollDistance
           (FP.fsub (Window.m_ScrollDistance w)
              (FP.fmul (Window.m_ZoomSpeed w) (FP.float_of_double (Window.m_DeltaTime w)))) w
       else if FP.flt preciseY (FP.float_of_int 0) then
         Window.set_ScrollDistance
           (FP.fadd (Window.m_ScrollDistance w)
              (FP.fmul (Window.m_ZoomSpeed w) (FP.float_of_double (Window.m_DeltaTime w)))) w
       else w) log.
Proof.
  cbn [Window.FirstUpdate Window.handle_event].
  destruct (FP.fgt _ _); [reflexivity |]. destruct (FP.flt _ _); reflexivity.
Qed.

Lemma zoom_step : FP.fmul FP.f550 f_0_1 = f55.
Proof. vm_compute. reflexivity. Qed.

(** C3, as the code has it.  With 0.1 s of elapsed time and rate 550, one
    wheel event with [preciseY < 0] adds 55.0 to the accumulator and one
    with [preciseY > 0] subtracts 55.0 from it (in single precision); no
    call is made. *)
Theorem wheel_moves_accumulator (w : Window.t) (preciseY : FP.float) :
  Window.GetDeltaTime w = f_0_1 ->
  Window.m_ZoomSpeed w = FP.f550 ->
  (FP.flt preciseY (FP.float_of_int 0) = true ->
     returns_with (Window.FirstUpdate [SDL_MOUSEWHEEL preciseY] w)
       (fun w' calls => calls = [] /\
          Window.GetScrollDistance w' = FP.fadd (Window.GetScrollDistance w) f55)) /\
  (FP.fgt preciseY (FP.float_of_int 0) = true ->
     returns_with (Window.FirstUpdate [SDL_MOUSEWHEEL preciseY] w)
       (fun w' calls => calls = [] /\
          Window.GetScrollDistance w' = FP.fsub (Window.GetScrollDistance w) f55)).
Proof.
  unfold Window.GetDeltaTime, Window.GetScrollDistance. intros Hdt Hzoom.
  split; intros Hy log; rewrite FirstUpdate_wheel.
  - rewrite (flt_zero_not_fgt _ Hy), Hy, Hdt, Hzoom, zoom_step.
    eexists _, []. rewrite app_nil_r. split; [reflexivity |].
    split; [reflexivity |]. destruct w; reflexivity.
  - rewrite Hy, Hdt, Hzoom, zoom_step.
    eexists _, []. rewrite app_nil_r. split; [reflexivity |].
    split; [reflexivity |]. destruct w; reflexivity.
Qed.

Lemma wheel_moves_accumulator_witness :
  Window.GetDeltaTime window_tenth = f_0_1 /\
  Window.m_ZoomSpeed window_tenth = FP.f550 /\
  FP.flt f_minus_1 (FP.float_of_int 0) = true /\
  returns_with (Window.FirstUpdate [SDL_MOUSEWHEEL f_minus_1] window_tenth)
    (fun w' calls => calls = [] /\
       Window.GetScrollDistance w' = FP.fadd (Window.GetScrollDistance window_tenth) f55) /\
  FP.fgt FP.f1 (FP.float_of_int 0) = true /\
  returns_with (Window.FirstUpdate [SDL_MOUSEWHEEL FP.f1] window_tenth)
    (fun w' calls => calls = [] /\
       Window.GetScrollDistance w' = FP.fsub (Window.GetScrollDistance window_tenth) f55).
Proof.
  assert (Hdt : Window.GetDeltaTime window_tenth = f_0_1) by (vm_compute; reflexivity).
  assert (Hzoom : Window.m_ZoomSpeed window_tenth = FP.f550) by reflexivity.
  assert (Hneg : FP.flt f_minus_1 (FP.float_of_int 0) = true) by (vm_compute; reflexivity).
  assert (Hpos : FP.fgt FP.f1 (FP.float_of_int 0) = true) by (vm_compute; reflexivity).
  split; [exact Hdt |]. split; [exact Hzoom |]. split; [exact Hneg |].
  split; [| split; [exact Hpos |]].
  - apply (wheel_moves_accumulator window_tenth f_minus_1 Hdt Hzoom), Hneg.
  - apply (wheel_moves_accumulator window_tenth FP.f1 Hdt Hzoom), Hpos.
Defined.

(** C3 with the signs of the specification does not hold: after 0.1 s at
    rate 550, a wheel event with [preciseY = -1] takes the accumulator
    from 0 to +55.0, not to -55.0, and one with [preciseY = +1] takes it
    to -55.0, not to +55.0. *)
Lemma wheel_direction_counterexample :
  Window.GetDeltaTime window_tenth = f_0_1 /\
  Window.m_ZoomSpeed window_tenth = FP.f550 /\
  Window.GetScrollDistance window_tenth = FP.f0 /\
  (exists w',
     FP.flt f_minus_1 (FP.float_of_int 0) = true /\
     Window.FirstUpdate [SDL_MOUSEWHEEL f_minus_1] window_tenth [] = Normal w' [] /\
     Window.GetScrollDistance w' = f55 /\
     Window.GetScrollDistance w'
     <> FP.fsub (Window.GetScrollDistance window_tenth) f55) /\
  (exists w',
     FP.fgt FP.f1 (FP.float_of_int 0) = true /\
     Window.FirstUpdate [SDL_MOUSEWHEEL FP.f1] window_tenth [] = Normal w' [] /\
     Window.GetScrollDistance w' = FP.fsub FP.f0 f55 /\
     Window.GetScrollDistance w'
     <> FP.fadd (Window.GetScrollDistance window_tenth) f55).
Proof.
  split; [vm_compute; reflexivity |]. split; [reflexivity |]. split; [reflexivity |].
  split; eexists; (split; [vm_compute; reflexivity |]);
    (split; [reflexivity |]); (split; [vm_compute; reflexivity |]);
    vm_compute; discriminate.
Qed.

(** C8. [SecondUpdate] leaves every member as it was except five: the
    resized flag becomes false, both relative displacements become zero,
    and the two state maps take the decay of C1.  So the accumulator, the
    absolute position, width, height, delta time and the open flag read
    the same after it; the accumulator is the same after any number of
    [SecondUpdate] calls and after any program without a wheel event. *)
Theorem SecondUpdate_frame `{Platform} (w : Window.t) :
  Window.SecondUpdate w
  = Window.mk (Window.window w) (Window.glContext w) (Window.m_Width w) (Window.m_Height w)
      (Window.m_IsOpen w) false (Window.m_DeltaTime w) (Window.m_LastFrame w)
      (Window.m_MousePosX w) (Window.m_MousePosY w) FP.f0 FP.f0
      (Window.m_ScrollDistance w) (Window.m_ZoomSpeed w)
      (Window.decay <$> Window.m_Keys w) (Window.decay <$> Window.m_MouseButtons w) /\
  Window.GetResized (Window.SecondUpdate w) = false /\
  Window.GetRelMousePos (Window.SecondUpdate w) = (FP.f0, FP.f0) /\
  Window.GetScrollDistance (Window.SecondUpdate w) = Window.GetScrollDistance w /\
  Window.GetMousePos (Window.SecondUpdate w) = Window.GetMousePos w /\
  Window.GetWidth (Window.SecondUpdate w) = Window.GetWidth w /\
  Window.GetHeight (Window.SecondUpdate w) = Window.GetHeight w /\
  Window.GetDeltaTime (Window.SecondUpdate w) = Window.GetDeltaTime w /\
  Window.IsOpen (Window.SecondUpdate w) = Window.IsOpen w /\
  (forall n, Window.GetScrollDistance (Nat.iter n Window.SecondUpdate w)
             = Window.GetScrollDistance w) /\
  (forall ops, Forall (fun ev => is_wheel ev = false) (events ops) ->
     returns_with (window_run ops w)
       (fun w' _ => Window.GetScrollDistance w' = Window.GetScrollDistance w)).
Proof.
  repeat match goal with |- _ /\ _ => split end; try (destruct w; reflexivity).
  - induction n as [|n IH]; [reflexivity |].
    change (Nat.iter (S n) Window.SecondUpdate w)
      with (Window.SecondUpdate (Nat.iter n Window.SecondUpdate w)).
    rewrite <- IH. destruct (Nat.iter n Window.SecondUpdate w); reflexivity.
  - intros ops Hops. apply scroll_invariant; [exact Hops | reflexivity].
Qed.

Lemma SecondUpdate_frame_witness :
  Window.GetRelMousePos (Window.SecondUpdate window_mid_frame) = (FP.f0, FP.f0) /\
  Forall (fun ev => is_wheel ev = false)
    (events [DoFirstUpdate [SDL_MOUSEMOTION 10 20 1 2; SDL_KEYDOWN 4]; DoSecondUpdate]) /\
  returns_with
    (@window_run sdl2 [DoFirstUpdate [SDL_MOUSEMOTION 10 20 1 2; SDL_KEYDOWN 4]; DoSecondUpdate]
       window_mid_frame)
    (fun w' _ => Window.GetScrollDistance w' = Window.GetScrollDistance window_mid_frame).
Proof.
  assert (Hq : Forall (fun ev => is_wheel ev = false)
                 (events [DoFirstUpdate [SDL_MOUSEMOTION 10 20 1 2; SDL_KEYDOWN 4];
                          DoSecondUpdate]))
    by (repeat constructor).
  destruct (@SecondUpdate_frame sdl2 window_mid_frame)
    as (_ & _ & Hrel & _ & _ & _ & _ & _ & _ & _ & Hops).
  split; [exact Hrel |]. split; [exact Hq |]. apply Hops, Hq.
Defined.

(** C8 without the exception for the state maps does not hold:
    [SecondUpdate] also rewrites them.  Here scancode 4 goes from
    JustPressed to Down, so the window is not the old one with only the
    flag and the displacement cleared. *)
Lemma SecondUpdate_changes_key_states_counterexample :
  Window.m_Keys window_mid_frame !! 4 = Some JustPressed /\
  Window.m_Keys (Window.SecondUpdate window_mid_frame) !! 4 = Some Down /\
  Window.SecondUpdate window_mid_frame
  <> Window.set_MouseRel FP.f0 FP.f0 (Window.set_IsResized false window_mid_frame).
Proof.
  split; [reflexivity |]. split; [reflexivity |].
  intros E. apply (f_equal (fun w => Window.m_Keys w !! 4)) in E.
  vm_compute in E. discriminate E.
Qed.

(** ** Facts about [Shader] *)

Lemma std_map_insert_absent (k : string) (v : Z) (m : gmap string Z) :
  m !! k = None -> std_map_insert k v m = <[k := v]> m.
Proof. intros E. unfold std_map_insert. rewrite E. reflexivity. Qed.

Lemma queries_app (a b : list Call) : queries (a ++ b) = queries a ++ queries b.
Proof.
  induction a as [|c a IH]; [reflexivity |].
  destruct c; simpl; rewrite ?IH; reflexivity.
Qed.

Section ShaderFacts.
Context `{Platform}.

(** [GetUniformLocation] in one equation. *)
Lemma GetUniformLocation_unfold (name : string) (s : Shader.t) (log : list Call) :
  Shader.GetUniformLocation name s log
  = match Shader.m_UniformLocations s !! name with
    | Some location => Normal (location, s) log
    | None =>
        let q := glGetUniformLocation (Shader.m_ID s) name in
        Normal (returns log q,
                Shader.mk (Shader.m_ID s)
                          (<[name := returns log q]> (Shader.m_UniformLocations s)))
               (log ++ [q])
    end.
Proof.
  unfold Shader.GetUniformLocation.
  destruct (Shader.m_UniformLocations s !! name) eqn:E; [reflexivity |].
  gl_unfold. rewrite (std_map_insert_absent _ _ _ E). reflexivity.
Qed.

(** One member call: the program handle stays; a call that names a
    cached uniform leaves the shader alone and asks nothing; a call that
    names an absent one asks the driver once and caches the answer. *)
Lemma shader_step_spec (o : shader_op) (s : Shader.t) :
  returns_with (shader_step o s) (fun s' calls =>
    Shader.m_ID s' = Shader.m_ID s /\
    match names o with
    | None => s' = s /\ queries calls = []
    | Some name =>
        match Shader.m_UniformLocations s !! name with
        | Some _ => s' = s /\ queries calls = []
        | None => queries calls = [name] /\
                  exists location,
                    Shader.m_UniformLocations s'
                    = <[name := location]> (Shader.m_UniformLocations s)
        end
    end).
Proof.
  intros log.
  destruct o; cbn [shader_step names];
    unfold Shader.SetMat4, Shader.SetVec4, Shader.SetVec3, Shader.SetVec2,
           Shader.SetFloat, Shader.SetInt, Shader.SetBool, Shader.Use, Shader.Unuse;
    gl_unfold; rewrite ?GetUniformLocation_unfold;
    try (eexists _, _; split; [rewrite <- ?app_assoc; reflexivity | auto]; fail);
    destruct (Shader.m_UniformLocations s !! name) eqn:E; cbn [fst snd];
    (eexists _, _; split; [rewrite <- ?app_assoc; reflexivity |]);
    cbn [queries app]; eauto.
Qed.

End ShaderFacts.

(** Over any program, no name is asked of the driver twice, a name that is
    asked was absent from the cache and is in it afterwards, and an entry
    of the cache is never changed. *)
Lemma shader_run_queries_once `{Platform} (ops : list shader_op) (s : Shader.t) :
  returns_with (shader_run ops s) (fun s' calls =>
    NoDup (queries calls) /\
    (forall n, n ∈ queries calls ->
       Shader.m_UniformLocations s !! n = None /\
       is_Some (Shader.m_UniformLocations s' !! n)) /\
    (forall n location, Shader.m_UniformLocations s !! n = Some location ->
       Shader.m_UniformLocations s' !! n = Some location)).
Proof.
  revert s. induction ops as [|o rest IH]; intros s; cbn [shader_run].
  - apply returns_with_ret. cbn [queries]. split; [constructor |].
    split; [intros n Hn; inversion Hn | auto].
  - eapply returns_with_bind; [apply shader_step_spec |].
    intros s1 calls1 (Hid & Hstep). cbv beta.
    eapply returns_with_weaken; [apply IH |].
    intros s' calls2 (Hnodup & Hasked & Hkept). cbv beta.
    rewrite queries_app.
    destruct (names o) as [name|].
    + destruct (Shader.m_UniformLocations s !! name) as [l|] eqn:E.
      * destruct Hstep as [-> ->]. cbn [app]. auto.
      * destruct Hstep as (-> & location & Hcache). cbn [app].
        assert (Hin1 : Shader.m_UniformLocations s1 !! name = Some location)
          by (rewrite Hcache; apply lookup_insert_eq).
        split; [| split].
        -- constructor; [| exact Hnodup].
           intros Hin. destruct (Hasked name Hin) as [Hnone _]. congruence.
        -- intros n Hn. apply elem_of_cons in Hn as [-> | Hn].
           ++ split; [exact E |]. exists location. apply Hkept, Hin1.
           ++ destruct (Hasked n Hn) as [Hnone Hsome]. split; [| exact Hsome].
              rewrite Hcache in Hnone.
              destruct (decide (name = n)) as [-> | Hne].
              ** rewrite lookup_insert_eq in Hnone. discriminate.
              ** rewrite lookup_insert_ne in Hnone by exact Hne. exact Hnone.
        -- intros n l Hn. apply Hkept. rewrite Hcache.
           rewrite lookup_insert_ne; [exact Hn | congruence].
    + destruct Hstep as [-> ->]. cbn [app]. auto.
Qed.

(** C9. A lookup of a name that is not cached asks the driver once and
    stores the answer, whatever it is; a lookup of a cached name returns
    the stored location, asks nothing and leaves the shader as it is; over
    any sequence of member calls no name is asked twice and no stored
    location changes. *)
Theorem uniform_location_cached_once `{Platform} (s : Shader.t) (name : string) :
  (Shader.m_UniformLocations s !! name = None ->
     forall log,
       let q := glGetUniformLocation (Shader.m_ID s) name in
       exists s',
         Shader.GetUniformLocation name s log = Normal (returns log q, s') (log ++ [q]) /\
         Shader.m_ID s' = Shader.m_ID s /\
         Shader.m_UniformLocations s'
         = <[name := returns log q]> (Shader.m_UniformLocations s) /\
         forall log', Shader.GetUniformLocation name s' log' = Normal (returns log q, s') log') /\
  (forall location, Shader.m_UniformLocations s !! name = Some location ->
     forall log, Shader.GetUniformLocation name s log = Normal (location, s) log) /\
  (forall ops,
     returns_with (shader_run ops s) (fun s' calls =>
       NoDup (queries calls) /\
       (forall n, n ∈ queries calls ->
          Shader.m_UniformLocations s !! n = None /\
          is_Some (Shader.m_UniformLocations s' !! n)) /\
       (forall n location, Shader.m_UniformLocations s !! n = Some location ->
          Shader.m_UniformLocations s' !! n = Some location))).
Proof.
  split; [| split].
  - intros Hnone log q. eexists. rewrite GetUniformLocation_unfold, Hnone.
    split; [reflexivity |]. split; [reflexivity |]. split; [reflexivity |].
    intros log'. rewrite GetUniformLocation_unfold. cbn [Shader.m_UniformLocations].
    rewrite lookup_insert_eq. reflexivity.
  - intros location Hsome log. rewrite GetUniformLocation_unfold, Hsome. reflexivity.
  - intros ops. apply shader_run_queries_once.
Qed.

Lemma uniform_location_cached_once_witness :
  Shader.m_UniformLocations (Shader.mk 3 ∅) !! "model" = None /\
  (exists s',
     @Shader.GetUniformLocation sdl2 "model" (Shader.mk 3 ∅) []
     = Normal (-1, s') [glGetUniformLocation 3 "model"] /\
     forall log', @Shader.GetUniformLocation sdl2 "model" s' log' = Normal (-1, s') log') /\
  Shader.m_UniformLocations (Shader.mk 3 {["model" := 7]}) !! "model" = Some 7 /\
  @Shader.GetUniformLocation sdl2 "model" (Shader.mk 3 {["model" := 7]}) []
  = Normal (7, Shader.mk 3 {["model" := 7]}) [].
Proof.
  assert (Hnone : Shader.m_UniformLocations (Shader.mk 3 ∅) !! "model" = None) by reflexivity.
  assert (Hsome : Shader.m_UniformLocations (Shader.mk 3 {["model" := 7]}) !! "model" = Some 7)
    by reflexivity.
  destruct (@uniform_location_cached_once sdl2 (Shader.mk 3 ∅) "model") as (Hfirst & _).
  destruct (@uniform_location_cached_once sdl2 (Shader.mk 3 {["model" := 7]}) "model")
    as (_ & Hhit & _).
  destruct (Hfirst Hnone []) as (s' & Hask & _ & _ & Hagain).
  split; [exact Hnone |]. split; [| split; [exact Hsome | exact (Hhit 7 Hsome [])]].
  exists s'. split; [exact Hask | exact Hagain].
Defined.

(** ** Facts about the buffers *)

(** Within [max_size()] the byte size of a vector does not wrap. *)
Lemma byte_size_no_wrap {A} (sizeof_T : Z) (v : list A) :
  0 <= sizeof_T -> Cxx.vector_ok sizeof_T v ->
  Cxx.to_size_t (Cxx.size v * sizeof_T) = Cxx.size v * sizeof_T.
Proof.
  unfold Cxx.vector_ok, Cxx.to_size_t, Cxx.PTRDIFF_MAX, Cxx.size. intros Hs Hv.
  apply Z.mod_small. split; [apply Z.mul_nonneg_nonneg; lia | lia].
Qed.

Lemma VertexBufferObject_UpdateVBO_unfold (vertices : list Vertex)
    (b : VertexBufferObject.t) (log : list Call) :
  VertexBufferObject.UpdateVBO vertices b log
  = let newSize := Cxx.to_size_t (Cxx.size vertices * sizeof_Vertex) in
    let bind_ := glBindBuffer GL_ARRAY_BUFFER (VertexBufferObject.m_ID b) in
    if newSize =? VertexBufferObject.m_Size b then
      Normal (VertexBufferObject.mk (VertexBufferObject.m_ID b) (VertexBufferObject.m_Usage b)
                (VertexBufferObject.m_Size b) (Cxx.size vertices))
             (log ++ [bind_; glBufferSubData GL_ARRAY_BUFFER 0 newSize (VertexData vertices)])
    else
      Normal (VertexBufferObject.mk (VertexBufferObject.m_ID b) (VertexBufferObject.m_Usage b)
                newSize (Cxx.size vertices))
             (log ++ [bind_; glBufferData GL_ARRAY_BUFFER newSize (VertexData vertices)
                               (VertexBufferObject.m_Usage b)]).
Proof.
  unfold VertexBufferObject.UpdateVBO, VertexBufferObject.Use. gl_unfold.
  cbn [VertexBufferObject.m_Size VertexBufferObject.m_ID VertexBufferObject.m_Usage
       VertexBufferObject.m_VertexCount].
  destruct (_ =? _); rewrite <- app_assoc; reflexivity.
Qed.

Lemma ElementBufferObject_UpdateVBO_unfold (indices : list Z)
    (b : ElementBufferObject.t) (log : list Call) :
  ElementBufferObject.UpdateVBO indices b log
  = let newSize := Cxx.to_size_t (Cxx.size indices * sizeof_unsigned_int) in
    let bind_ := glBindBuffer GL_ELEMENT_ARRAY_BUFFER (ElementBufferObject.m_ID b) in
    if newSize =? ElementBufferObject.m_Size b then
      Normal (ElementBufferObject.mk (ElementBufferObject.m_ID b) (ElementBufferObject.m_Usage b)
                (ElementBufferObject.m_Size b) (Cxx.size indices))
             (log ++ [bind_; glBufferSubData GL_ELEMENT_ARRAY_BUFFER 0 newSize (IndexData indices)])
    else
      Normal (ElementBufferObject.mk (ElementBufferObject.m_ID b) (ElementBufferObject.m_Usage b)
                newSize (Cxx.size indices))
             (log ++ [bind_; glBufferData GL_ELEMENT_ARRAY_BUFFER newSize (IndexData indices)
                               (ElementBufferObject.m_Usage b)]).
Proof.
  unfold ElementBufferObject.UpdateVBO, ElementBufferObject.Use. gl_unfold.
  cbn [ElementBufferObject.m_Size ElementBufferObject.m_ID ElementBufferObject.m_Usage
       ElementBufferObject.m_IndexCount].
  destruct (_ =? _); rewrite <- app_assoc; reflexivity.
Qed.

(** [UpdateVBO] of either buffer class goes by the size the object has
    recorded, [m_Size]: given a sequence within [max_size()], when its
    byte size equals [m_Size] the call binds the buffer and writes the
    sub-range from offset 0, with no [glBufferData]; when it differs the
    call binds and reallocates with [glBufferData] and records the new
    size; either way the reported count is the length of the sequence. *)
Lemma UpdateVBO_by_recorded_size
    (vb : VertexBufferObject.t) (vertices : list Vertex)
    (eb : ElementBufferObject.t) (indices : list Z) :
  Cxx.vector_ok sizeof_Vertex vertices ->
  Cxx.vector_ok sizeof_unsigned_int indices ->
  (Cxx.size vertices * sizeof_Vertex = VertexBufferObject.m_Size vb ->
     returns_with (VertexBufferObject.UpdateVBO vertices vb) (fun vb' calls =>
       calls = [glBindBuffer GL_ARRAY_BUFFER (VertexBufferObject.m_ID vb);
                glBufferSubData GL_ARRAY_BUFFER 0 (Cxx.size vertices * sizeof_Vertex)
                                (VertexData vertices)] /\
       VertexBufferObject.GetVertexCount vb' = Z.of_nat (length vertices) /\
       VertexBufferObject.m_Size vb' = VertexBufferObject.m_Size vb /\
       VertexBufferObject.m_ID vb' = VertexBufferObject.m_ID vb /\
       VertexBufferObject.m_Usage vb' = VertexBufferObject.m_Usage vb)) /\
  (Cxx.size vertices * sizeof_Vertex <> VertexBufferObject.m_Size vb ->
     returns_with (VertexBufferObject.UpdateVBO vertices vb) (fun vb' calls =>
       calls = [glBindBuffer GL_ARRAY_BUFFER (VertexBufferObject.m_ID vb);
                glBufferData GL_ARRAY_BUFFER (Cxx.size vertices * sizeof_Vertex)
                             (VertexData vertices) (VertexBufferObject.m_Usage vb)] /\
       VertexBufferObject.GetVertexCount vb' = Z.of_nat (length vertices) /\
       VertexBufferObject.m_Size vb' = Cxx.size vertices * sizeof_Vertex /\
       VertexBufferObject.m_ID vb' = VertexBufferObject.m_ID vb /\
       VertexBufferObject.m_Usage vb' = VertexBufferObject.m_Usage vb)) /\
  (Cxx.size indices * sizeof_unsigned_int = ElementBufferObject.m_Size eb ->
     returns_with (ElementBufferObject.UpdateVBO indices eb) (fun eb' calls =>
       calls = [glBindBuffer GL_ELEMENT_ARRAY_BUFFER (ElementBufferObject.m_ID eb);
                glBufferSubData GL_ELEMENT_ARRAY_BUFFER 0
                                (Cxx.size indices * sizeof_unsigned_int) (IndexData indices)] /\
       ElementBufferObject.GetIndexCount eb' = Z.of_nat (length indices) /\
       ElementBufferObject.m_Size eb' = ElementBufferObject.m_Size eb /\
       ElementBufferObject.m_ID eb' = ElementBufferObject.m_ID eb /\
       ElementBufferObject.m_Usage eb' = ElementBufferObject.m_Usage eb)) /\
  (Cxx.size indices * sizeof_unsigned_int <> ElementBufferObject.m_Size eb ->
     returns_with (ElementBufferObject.UpdateVBO indices eb) (fun eb' calls =>
       calls = [glBindBuffer GL_ELEMENT_ARRAY_BUFFER (ElementBufferObject.m_ID eb);
                glBufferData GL_ELEMENT_ARRAY_BUFFER (Cxx.size indices * sizeof_unsigned_int)
                             (IndexData indices) (ElementBufferObject.m_Usage eb)] /\
       ElementBufferObject.GetIndexCount eb' = Z.of_nat (length indices) /\
       ElementBufferObject.m_Size eb' = Cxx.size indices * sizeof_unsigned_int /\
       ElementBufferObject.m_ID eb' = ElementBufferObject.m_ID eb /\
       ElementBufferObject.m_Usage eb' = ElementBufferObject.m_Usage eb)).
Proof.
  intros Hv Hi.
  pose proof (byte_size_no_wrap sizeof_Vertex vertices ltac:(discriminate) Hv) as Wv.
  pose proof (byte_size_no_wrap sizeof_unsigned_int indices ltac:(discriminate) Hi) as Wi.
  split; [| split; [| split]]; intros Hsize log.
  - rewrite VertexBufferObject_UpdateVBO_unfold. cbv zeta. rewrite Wv.
    rewrite (proj2 (Z.eqb_eq _ _) Hsize). eexists _, _. split; [reflexivity |].
    cbn. auto.
  - rewrite VertexBufferObject_UpdateVBO_unfold. cbv zeta. rewrite Wv.
    rewrite (proj2 (Z.eqb_neq _ _) Hsize). eexists _, _. split; [reflexivity |].
    cbn. auto.
  - rewrite ElementBufferObject_UpdateVBO_unfold. cbv zeta. rewrite Wi.
    rewrite (proj2 (Z.eqb_eq _ _) Hsize). eexists _, _. split; [reflexivity |].
    cbn. auto.
  - rewrite ElementBufferObject_UpdateVBO_unfold. cbv zeta. rewrite Wi.
    rewrite (proj2 (Z.eqb_neq _ _) Hsize). eexists _, _. split; [reflexivity |].
    cbn. auto.
Qed.

Lemma allocated_app (target : BufferTarget) (a b : list Call) (before : option Z) :
  allocated target (a ++ b) before = allocated target b (allocated target a before).
Proof.
  revert before. induction a as [|c a IH]; intros before; [reflexivity |].
  destruct c; cbn [app allocated]; apply IH.
Qed.

Lemma last_cons_default {A} (x d : A) (l : list A) : List.last (x :: l) d = List.last l x.
Proof.
  revert x d. induction l as [|y l IH]; intros x d; [reflexivity |].
  change (List.last (x :: y :: l) d) with (List.last (y :: l) d).
  rewrite (IH y d), (IH y x). reflexivity.
Qed.

(** What a vertex buffer is after construction and any number of updates:
    it reports the length of the last sequence, and its recorded size is
    the size of the last [glBufferData], the store the driver holds. *)
Lemma vbo_updates_spec (updates : list (list Vertex)) (b : VertexBufferObject.t)
    (last_ : list Vertex) (before : option Z) :
  VertexBufferObject.GetVertexCount b = Z.of_nat (length last_) ->
  before = Some (VertexBufferObject.m_Size b) ->
  returns_with (vbo_updates updates b) (fun b' calls =>
    VertexBufferObject.GetVertexCount b' = Z.of_nat (length (List.last updates last_)) /\
    allocated GL_ARRAY_BUFFER calls before = Some (VertexBufferObject.m_Size b') /\
    VertexBufferObject.m_ID b' = VertexBufferObject.m_ID b).
Proof.
  revert b last_ before.
  induction updates as [|vertices rest IH]; intros b last_ before Hcount Hsize;
    cbn [vbo_updates].
  - apply returns_with_ret. cbn. auto.
  - eapply returns_with_bind
      with (P := fun b1 calls1 =>
                   VertexBufferObject.GetVertexCount b1 = Z.of_nat (length vertices) /\
                   allocated GL_ARRAY_BUFFER calls1 before
                   = Some (VertexBufferObject.m_Size b1) /\
                   VertexBufferObject.m_ID b1 = VertexBufferObject.m_ID b).
    + intros log. rewrite VertexBufferObject_UpdateVBO_unfold. cbv zeta.
      destruct (_ =? _); eexists _, _; (split; [reflexivity |]); subst before; cbn; auto.
    + intros b1 calls1 (Hc1 & Ha1 & Hid1). cbv beta.
      eapply returns_with_weaken; [apply (IH b1 vertices _ Hc1 Ha1) |].
      intros b' calls2 (Hc & Ha & Hid). cbv beta.
      rewrite allocated_app. split; [| split; [exact Ha | congruence]].
      rewrite Hc, last_cons_default. reflexivity.
Qed.

(** C6. A vertex buffer constructed from a list reports its length;
    after [UpdateVBO] with another list it reports that one's length; and
    after construction and any run of updates it reports the length of the
    last list it was given. *)
Theorem vertex_count_round_trip `{Platform}
    (vertices : list Vertex) (usage : BufferUsage.t) (b : VertexBufferObject.t)
    (updates : list (list Vertex)) :
  returns_with (VertexBufferObject.VertexBufferObject vertices usage)
    (fun b0 _ => VertexBufferObject.GetVertexCount b0 = Z.of_nat (length vertices)) /\
  returns_with (VertexBufferObject.UpdateVBO vertices b)
    (fun b' _ => VertexBufferObject.GetVertexCount b' = Z.of_nat (length vertices)) /\
  returns_with (b0 ← VertexBufferObject.VertexBufferObject vertices usage;
                vbo_updates updates b0)
    (fun b' calls =>
       VertexBufferObject.GetVertexCount b'
       = Z.of_nat (length (List.last updates vertices)) /\
       allocated GL_ARRAY_BUFFER calls None = Some (VertexBufferObject.m_Size b')).
Proof.
  assert (Hnew : returns_with (VertexBufferObject.VertexBufferObject vertices usage)
                   (fun b0 calls =>
                      VertexBufferObject.GetVertexCount b0 = Z.of_nat (length vertices) /\
                      allocated GL_ARRAY_BUFFER calls None
                      = Some (VertexBufferObject.m_Size b0))).
  { unfold VertexBufferObject.VertexBufferObject. gl_exec. cbn. auto. }
  split; [| split].
  - eapply returns_with_weaken; [exact Hnew |]. intros b0 calls [Hc _]. exact Hc.
  - intros log. rewrite VertexBufferObject_UpdateVBO_unfold. cbv zeta.
    destruct (_ =? _); eexists _, _; (split; [reflexivity |]); reflexivity.
  - eapply returns_with_bind; [exact Hnew |].
    intros b0 calls0 (Hc0 & Ha0). cbv beta.
    eapply returns_with_weaken; [apply (vbo_updates_spec updates b0 vertices _ Hc0 Ha0) |].
    intros b' calls (Hc & Ha & _). cbv beta. rewrite allocated_app. auto.
Qed.

(** C10. The move constructor hands over [m_ID] and [m_Usage] and leaves
    the target with vertex count 0 and recorded size 0 (and the source
    with handle 0); so [UpdateVBO] on the target with a non-empty list
    reallocates with [glBufferData].  Move assignment between two distinct
    objects deletes the target's old buffer, hands over [m_ID], [m_Usage]
    and the vertex count, and keeps the target's own recorded size. *)
Theorem move_drops_size_metadata (other this : VertexBufferObject.t)
    (vertices : list Vertex) (this_addr other_addr : Z) :
  let moved := VertexBufferObject.move_construct other in
  (VertexBufferObject.m_ID moved.1 = VertexBufferObject.m_ID other /\
   VertexBufferObject.m_Usage moved.1 = VertexBufferObject.m_Usage other /\
   VertexBufferObject.GetVertexCount moved.1 = 0 /\
   VertexBufferObject.m_Size moved.1 = 0 /\
   VertexBufferObject.m_ID moved.2 = 0) /\
  (vertices <> [] -> Cxx.vector_ok sizeof_Vertex vertices ->
     returns_with (VertexBufferObject.UpdateVBO vertices moved.1) (fun b' calls =>
       calls = [glBindBuffer GL_ARRAY_BUFFER (VertexBufferObject.m_ID other);
                glBufferData GL_ARRAY_BUFFER (Cxx.size vertices * sizeof_Vertex)
                             (VertexData vertices) (VertexBufferObject.m_Usage other)] /\
       VertexBufferObject.GetVertexCount b' = Z.of_nat (length vertices) /\
       VertexBufferObject.m_Size b' = Cxx.size vertices * sizeof_Vertex)) /\
  (this_addr <> other_addr ->
     returns_with (VertexBufferObject.move_assign this_addr other_addr this other)
       (fun r calls =>
          calls = [glDeleteBuffers (VertexBufferObject.m_ID this)] /\
          VertexBufferObject.m_ID r.1 = VertexBufferObject.m_ID other /\
          VertexBufferObject.m_Usage r.1 = VertexBufferObject.m_Usage other /\
          VertexBufferObject.GetVertexCount r.1 = VertexBufferObject.GetVertexCount other /\
          VertexBufferObject.m_Size r.1 = VertexBufferObject.m_Size this /\
          VertexBufferObject.m_ID r.2 = 0)).
Proof.
  cbv zeta. split; [| split].
  - cbn. auto.
  - intros Hne Hok log.
    rewrite VertexBufferObject_UpdateVBO_unfold. cbv zeta.
    rewrite (byte_size_no_wrap sizeof_Vertex vertices ltac:(discriminate) Hok).
    cbn [VertexBufferObject.move_construct fst VertexBufferObject.m_Size
         VertexBufferObject.m_ID VertexBufferObject.m_Usage].
    assert (Hpos : (Cxx.size vertices * sizeof_Vertex =? 0) = false).
    { apply Z.eqb_neq. unfold Cxx.size, sizeof_Vertex.
      destruct vertices; [congruence | cbn [length]; lia]. }
    rewrite Hpos. eexists _, _. split; [reflexivity |]. cbn. auto.
  - intros Hne log. unfold VertexBufferObject.move_assign.
    rewrite (bool_decide_eq_true_2 _ Hne). gl_unfold.
    eexists _, _. split; [reflexivity |]. cbn. repeat apply conj; reflexivity.
Qed.

Lemma move_drops_size_metadata_witness :
  triangle <> [] /\ Cxx.vector_ok sizeof_Vertex triangle /\ 1000 <> 2000 /\
  VertexBufferObject.GetVertexCount
    (VertexBufferObject.move_construct (VertexBufferObject.mk 7 BufferUsage.DynamicDraw 132 3)).1
  = 0 /\
  returns_with
    (VertexBufferObject.UpdateVBO triangle
       (VertexBufferObject.move_construct
          (VertexBufferObject.mk 7 BufferUsage.DynamicDraw 132 3)).1)
    (fun b' calls =>
       calls = [glBindBuffer GL_ARRAY_BUFFER 7;
                glBufferData GL_ARRAY_BUFFER 132 (VertexData triangle) BufferUsage.DynamicDraw] /\
       VertexBufferObject.GetVertexCount b' = 3) /\
  returns_with
    (VertexBufferObject.move_assign 1000 2000
       (VertexBufferObject.mk 9 BufferUsage.StaticDraw 44 1)
       (VertexBufferObject.mk 7 BufferUsage.DynamicDraw 132 3))
    (fun r calls =>
       calls = [glDeleteBuffers 9] /\
       VertexBufferObject.GetVertexCount r.1 = 3 /\
       VertexBufferObject.m_Size r.1 = 44).
Proof.
  assert (Hne : triangle <> []) by discriminate.
  assert (Hok : Cxx.vector_ok sizeof_Vertex triangle) by (vm_compute; discriminate).
  assert (Haddr : 1000 <> 2000) by discriminate.
  destruct (move_drops_size_metadata
              (VertexBufferObject.mk 7 BufferUsage.DynamicDraw 132 3)
              (VertexBufferObject.mk 9 BufferUsage.StaticDraw 44 1)
              triangle 1000 2000)
    as ((_ & _ & Hcount & _) & Hupdate & Hassign).
  split; [exact Hne |]. split; [exact Hok |]. split; [exact Haddr |].
  split; [exact Hcount |]. split.
  - eapply returns_with_weaken; [apply (Hupdate Hne Hok) |].
    intros b' calls (Hc & Hn & _). split; [exact Hc | exact Hn].
  - eapply returns_with_weaken; [apply (Hassign Haddr) |].
    intros r calls (Hc & _ & _ & Hn & Hs & _). split; [exact Hc |]. split; [exact Hn | exact Hs].
Defined.

(** What the size kept by move assignment means for the next update: a
    buffer that recorded 132 bytes takes over a 44-byte store, and an
    update of 132 bytes is then written in place into that store. *)
Lemma stale_size_after_move_assign :
  (r ← VertexBufferObject.move_assign 1000 2000
         (VertexBufferObject.mk 9 BufferUsage.StaticDraw 132 3)
         (VertexBufferObject.mk 7 BufferUsage.DynamicDraw 44 1);
   VertexBufferObject.UpdateVBO triangle r.1) []
  = Normal (VertexBufferObject.mk 7 BufferUsage.DynamicDraw 132 3)
      [glDeleteBuffers 9; glBindBuffer GL_ARRAY_BUFFER 7;
       glBufferSubData GL_ARRAY_BUFFER 0 132 (VertexData triangle)].
Proof. reflexivity. Qed.

(** ** Facts about [GameObject::Render] *)

Lemma draws_app (a b : list Call) : draws (a ++ b) = draws a ++ draws b.
Proof.
  induction a as [|c a IH]; [reflexivity |].
  destruct c; cbn [app draws]; rewrite ?IH; reflexivity.
Qed.

Lemma faults_after {A B} (m : GL A) (k : A -> GL B)
    (P : A -> list Call -> Prop) (Q : list Call -> Prop) :
  returns_with m P ->
  (forall a calls, P a calls -> faults_with (k a) (fun calls' => Q (calls ++ calls'))) ->
  faults_with (m ≫= k) Q.
Proof.
  intros Hm Hk log.
  destruct (Hm log) as (a & calls & Em & HP).
  destruct (Hk a calls HP (log ++ calls)) as (calls' & Ek & HQ).
  exists (calls ++ calls').
  unfold mbind, GL_bind, bind. rewrite Em, Ek, <- app_assoc. auto.
Qed.

Lemma faults_now {A B} (m : GL A) (k : A -> GL B) (Q : list Call -> Prop) :
  faults_with m Q -> faults_with (m ≫= k) Q.
Proof.
  intros Hm log. destruct (Hm log) as (calls & Em & HQ). exists calls.
  unfold mbind, GL_bind, bind. rewrite Em. auto.
Qed.

Lemma faults_deref_null {A} (Q : list Call -> Prop) :
  Q [] -> faults_with (@deref A None) Q.
Proof. intros HQ log. exists []. rewrite app_nil_r. auto. Qed.

Section RenderFacts.
Context `{Platform} `{GLM}.

Lemma SetMat4_draws_nothing (name : string) (count : Z) (transpose : bool) (v : mat4)
    (s : Shader.t) :
  returns_with (Shader.SetMat4 name count transpose v s) (fun _ calls => draws calls = []).
Proof.
  intros log. unfold Shader.SetMat4, Shader.Use. gl_unfold.
  rewrite GetUniformLocation_unfold.
  destruct (Shader.m_UniformLocations s !! name); cbn [fst snd];
    (eexists _, _; split; [rewrite <- ?app_assoc; reflexivity | reflexivity]).
Qed.

Lemma SetInt_draws_nothing (name : string) (v : Z) (s : Shader.t) :
  returns_with (Shader.SetInt name v s) (fun _ calls => draws calls = []).
Proof.
  intros log. unfold Shader.SetInt, Shader.Use. gl_unfold.
  rewrite GetUniformLocation_unfold.
  destruct (Shader.m_UniformLocations s !! name); cbn [fst snd];
    (eexists _, _; split; [rewrite <- ?app_assoc; reflexivity | reflexivity]).
Qed.

(** The part of [Render] before the vertex array is bound. *)
Lemma bind_texture_draws_nothing (texture : option Texture.t) (sampler2DName : string)
    (s : Shader.t) :
  returns_with
    (match texture with
     | Some x => Texture.Bind 0 x;; Shader.SetInt sampler2DName 0 s
     | None => mret s
     end)
    (fun _ calls => draws calls = []).
Proof.
  destruct texture as [x|]; [| apply returns_with_ret; reflexivity].
  eapply returns_with_bind with (P := fun _ calls => draws calls = []).
  - unfold Texture.Bind. gl_exec. reflexivity.
  - intros _ calls Hc. eapply returns_with_weaken; [apply SetInt_draws_nothing |].
    intros s' calls' Hc'. cbv beta. rewrite draws_app, Hc, Hc'. reflexivity.
Qed.

End RenderFacts.

Lemma faults_after_drawless {A B} (m : GL A) (k : A -> GL B) :
  returns_with m (fun _ calls => draws calls = []) ->
  (forall a, faults_with (k a) (fun calls => draws calls = [])) ->
  faults_with (m ≫= k) (fun calls => draws calls = []).
Proof.
  intros Hm Hk. eapply faults_after; [exact Hm |].
  intros a calls Hc log. destruct (Hk a log) as (calls' & E & Hc').
  exists calls'. split; [exact E |]. rewrite draws_app, Hc, Hc'. reflexivity.
Qed.

(** C7. With no Renderable attached, or with a null shader, [Render]
    returns at once: the log is the one it was given (no call to the
    driver), and the object and the shader are the ones it was given. *)
Theorem Render_nothing_to_draw `{Platform} `{GLM} (g : GameObject.t)
    (shader : option Shader.t) (modelName sampler2DName : string) (renderMode : RenderMode)
    (log : list Call) :
  GameObject.m_Renderable g = None \/ shader = None ->
  GameObject.Render shader modelName sampler2DName renderMode g log = Normal (g, shader) log.
Proof.
  intros Hnull. unfold GameObject.Render.
  destruct (GameObject.m_Renderable g) as [r|]; [| reflexivity].
  destruct shader as [sh|]; [| reflexivity].
  destruct Hnull; discriminate.
Qed.

Lemma Render_nothing_to_draw_witness :
  @GameObject.Render sdl2 glm_identity (Some flat_shader) "model" "tex" Triangles
    (GameObject.GameObject origin) [glViewport 0 0 800 600]
  = Normal (GameObject.GameObject origin, Some flat_shader) [glViewport 0 0 800 600] /\
  @GameObject.Render sdl2 glm_identity None "model" "tex" Triangles
    triangle_object [glViewport 0 0 800 600]
  = Normal (triangle_object, None) [glViewport 0 0 800 600].
Proof.
  split.
  - apply (@Render_nothing_to_draw sdl2 glm_identity). left. reflexivity.
  - apply (@Render_nothing_to_draw sdl2 glm_identity). right. reflexivity.
Defined.

(** C4. [Render] does dereference a null index-buffer pointer, on every
    Renderable without an index buffer: with a shader supplied, it
    evaluates [GetEBO()->GetIndexCount()] on the null pointer before it
    compares [GetEBO()] with [nullptr], so it ends in a null dereference
    and no draw call has been issued. *)
Theorem Render_without_index_buffer_faults `{Platform} `{GLM} (g : GameObject.t)
    (r : Renderable.t) (sh : Shader.t) (modelName sampler2DName : string)
    (renderMode : RenderMode) :
  GameObject.m_Renderable g = Some r ->
  Renderable.m_EBO r = None ->
  faults_with (GameObject.Render (Some sh) modelName sampler2DName renderMode g)
    (fun calls => draws calls = []).
Proof.
  intros Hr Hebo. unfold GameObject.Render. rewrite Hr.
  apply faults_after_drawless; [unfold Shader.Use; gl_exec; reflexivity |]. intros _.
  apply faults_after_drawless; [apply SetMat4_draws_nothing |]. intros sh1.
  apply faults_after_drawless; [apply bind_texture_draws_nothing |]. intros sh2.
  unfold Renderable.GetVAO, Renderable.GetEBO. rewrite Hebo.
  destruct (Renderable.m_VAO r) as [vao|].
  - apply faults_after_drawless; [gl_exec; reflexivity |]. intros vao'.
    apply faults_after_drawless; [unfold VertexArrayObject.Use; gl_exec; reflexivity |].
    intros _. apply faults_now, faults_deref_null. reflexivity.
  - apply faults_now, faults_deref_null. reflexivity.
Qed.

Lemma Render_without_index_buffer_faults_witness :
  GameObject.m_Renderable triangle_object = Some plain_triangle /\
  Renderable.m_EBO plain_triangle = None /\
  faults_with
    (@GameObject.Render sdl2 glm_identity (Some flat_shader) "model" "tex" Triangles
       triangle_object)
    (fun calls => draws calls = []).
Proof.
  split; [reflexivity |]. split; [reflexivity |].
  apply (@Render_without_index_buffer_faults sdl2 glm_identity triangle_object plain_triangle);
    reflexivity.
Defined.

(** The same call on the concrete triangle, from the empty log: the
    program is bound, the model matrix uploaded, the array bound, and then
    the null [ElementBufferObject*] is dereferenced. *)
Lemma Render_plain_triangle :
  @GameObject.Render sdl2 glm_identity (Some flat_shader) "model" "tex" Triangles
    triangle_object []
  = NullDereference
      [glUseProgram 3; glUseProgram 3; glGetUniformLocation 3 "model";
       glUniformMatrix4fv (-1) 1 false (glm_mat4 FP.f1); glBindVertexArray 1].
Proof. reflexivity. Qed.

(** With an index buffer of three indices the same triangle is drawn by
    [glDrawElements] and [Render] returns. *)
Lemma Render_indexed_triangle :
  let g := GameObject.SetRenderable
             (Some (Renderable.mk (Some (VertexArrayObject.mk 1))
                      (Some (VertexBufferObject.mk 2 BufferUsage.StaticDraw 132 3))
                      (Some (ElementBufferObject.mk 4 BufferUsage.StaticDraw 12 3))
                      triangle [0; 1; 2]))
             (GameObject.GameObject origin) in
  @GameObject.Render sdl2 glm_identity (Some flat_shader) "model" "tex" Triangles g []
  = Normal (g, Some (Shader.mk 3 (<["model" := -1]> ∅)))
      [glUseProgram 3; glUseProgram 3; glGetUniformLocation 3 "model";
       glUniformMatrix4fv (-1) 1 false (glm_mat4 FP.f1); glBindVertexArray 1;
       glDrawElements Triangles 3 "GL_UNSIGNED_INT"; glBindVertexArray 0; glUseProgram 0].
Proof. vm_compute. reflexivity. Qed.

(** ** The recorded size and the store of the driver *)

Lemma driver_after_app (log calls : list Call) :
  driver_after (log ++ calls) = foldl driver_call (driver_after log) calls.
Proof. unfold driver_after. apply foldl_app. Qed.

Lemma two_buffers_built :
  two_buffers = Normal (three_vertex_buffer, one_vertex_buffer) two_buffers_log.
Proof. reflexivity. Qed.

(** The constructor and [UpdateVBO] keep the record true: when the driver
    hands out a name other than 0, after construction and any run of
    updates [m_Size] is the size of the store the driver holds for the
    buffer. *)
Lemma constructed_buffer_records_its_store `{Platform} (vertices : list Vertex)
    (usage : BufferUsage.t) (updates : list (list Vertex)) (log : list Call) :
  returns log glGenBuffers <> 0 ->
  exists b' calls,
    (b ← VertexBufferObject.VertexBufferObject vertices usage; vbo_updates updates b) log
    = Normal b' (log ++ calls) /\
    allocated_size (log ++ calls) (VertexBufferObject.m_ID b')
    = Some (VertexBufferObject.m_Size b').
Proof.
  intros Hname.
  assert (Hupd : forall ups b l,
            VertexBufferObject.m_ID b <> 0 ->
            allocated_size l (VertexBufferObject.m_ID b) = Some (VertexBufferObject.m_Size b) ->
            exists b' calls,
              vbo_updates ups b l = Normal b' (l ++ calls) /\
              allocated_size (l ++ calls) (VertexBufferObject.m_ID b')
              = Some (VertexBufferObject.m_Size b')).
  { induction ups as [|vs rest IH]; intros b l Hid Hb; cbn [vbo_updates].
    - exists b, []. rewrite app_nil_r. split; [reflexivity | exact Hb].
    - unfold mbind, GL_bind, bind. rewrite VertexBufferObject_UpdateVBO_unfold. cbv zeta.
      destruct (_ =? _).
      + edestruct (IH (VertexBufferObject.mk (VertexBufferObject.m_ID b)
                         (VertexBufferObject.m_Usage b) (VertexBufferObject.m_Size b)
                         (Cxx.size vs))) as (b' & calls & E & Ha).
        3: { rewrite E. eexists _, _. split; [rewrite <- app_assoc; reflexivity |].
             rewrite app_assoc. exact Ha. }
        * exact Hid.
        * unfold allocated_size in *. rewrite driver_after_app. cbn. exact Hb.
      + edestruct (IH (VertexBufferObject.mk (VertexBufferObject.m_ID b)
                         (VertexBufferObject.m_Usage b)
                         (Cxx.to_size_t (Cxx.size vs * sizeof_Vertex))
                         (Cxx.size vs))) as (b' & calls & E & Ha).
        3: { rewrite E. eexists _, _. split; [rewrite <- app_assoc; reflexivity |].
             rewrite app_assoc. exact Ha. }
        * exact Hid.
        * unfold allocated_size. rewrite driver_after_app. cbn.
          rewrite (proj2 (Z.eqb_neq _ _) Hid). cbn. apply lookup_insert_eq. }
  unfold VertexBufferObject.VertexBufferObject. gl_unfold.
  edestruct (Hupd updates) as (b' & calls & E & Ha).
  3: { rewrite E. eexists _, _. split; [rewrite <- !app_assoc; reflexivity |].
       rewrite !app_assoc. exact Ha. }
  - exact Hname.
  - unfold allocated_size. rewrite !driver_after_app. cbn.
    rewrite (proj2 (Z.eqb_neq _ _) Hname). cbn. apply lookup_insert_eq.
Qed.

(** The index buffer has the same slip: after move assignment its update
    goes by the size the target had recorded, not by the store taken over. *)
Lemma index_buffer_update_goes_by_stale_size (this other : ElementBufferObject.t)
    (indices : list Z) (this_addr other_addr : Z) (log : list Call) (store : Z) :
  this_addr <> other_addr ->
  ElementBufferObject.m_ID this <> ElementBufferObject.m_ID other ->
  Cxx.vector_ok sizeof_unsigned_int indices ->
  allocated_size log (ElementBufferObject.m_ID other) = Some store ->
  Cxx.size indices * sizeof_unsigned_int = ElementBufferObject.m_Size this ->
  exists b',
    let calls := [glDeleteBuffers (ElementBufferObject.m_ID this);
                  glBindBuffer GL_ELEMENT_ARRAY_BUFFER (ElementBufferObject.m_ID other);
                  glBufferSubData GL_ELEMENT_ARRAY_BUFFER 0
                                  (Cxx.size indices * sizeof_unsigned_int)
                                  (IndexData indices)] in
    (r ← ElementBufferObject.move_assign this_addr other_addr this other;
     ElementBufferObject.UpdateVBO indices r.1) log
    = Normal b' (log ++ calls) /\
    ElementBufferObject.m_ID b' = ElementBufferObject.m_ID other /\
    allocated_size (log ++ calls) (ElementBufferObject.m_ID b') = Some store /\
    ElementBufferObject.GetIndexCount b' = Z.of_nat (length indices).
Proof.
  intros Haddr Hids Hok Hstore Hstale.
  pose proof (byte_size_no_wrap sizeof_unsigned_int indices ltac:(discriminate) Hok) as W.
  unfold ElementBufferObject.move_assign. rewrite (bool_decide_eq_true_2 _ Haddr).
  unfold mbind, GL_bind, bind, mret, GL_ret, ret, call. cbn [fst].
  rewrite ElementBufferObject_UpdateVBO_unfold. cbv zeta.
  cbn [ElementBufferObject.m_Size ElementBufferObject.m_ID ElementBufferObject.m_Usage].
  rewrite W, (proj2 (Z.eqb_eq _ _) Hstale).
  eexists. split; [rewrite <- app_assoc; reflexivity |].
  cbn [ElementBufferObject.m_ID ElementBufferObject.GetIndexCount
       ElementBufferObject.m_IndexCount].
  split; [reflexivity |]. split; [| reflexivity].
  unfold allocated_size in *. rewrite driver_after_app. cbn.
  rewrite lookup_delete_ne by exact Hids. exact Hstore.
Qed.

(** C5. [UpdateVBO] does not go by the size that is allocated, and the
    move operations make the difference.  Move assignment hands over the
    name of the buffer and keeps the target's own [m_Size]: when the
    sequence has that stale size and the store taken over has another, the
    update binds the buffer and writes the sub-range, the store keeps its
    other size and nothing is reallocated.  The move constructor leaves
    [m_Size] at 0: an update of just the size that is allocated
    reallocates.  The count reported afterwards is the length of the
    sequence either way. *)
Theorem UpdateVBO_goes_by_stale_size (this other : VertexBufferObject.t)
    (vertices : list Vertex) (this_addr other_addr : Z) (log : list Call) (store : Z) :
  this_addr <> other_addr ->
  VertexBufferObject.m_ID this <> VertexBufferObject.m_ID other ->
  Cxx.vector_ok sizeof_Vertex vertices ->
  vertices <> [] ->
  allocated_size log (VertexBufferObject.m_ID other) = Some store ->
  (Cxx.size vertices * sizeof_Vertex = VertexBufferObject.m_Size this ->
   Cxx.size vertices * sizeof_Vertex <> store ->
   exists b',
     let calls := [glDeleteBuffers (VertexBufferObject.m_ID this);
                   glBindBuffer GL_ARRAY_BUFFER (VertexBufferObject.m_ID other);
                   glBufferSubData GL_ARRAY_BUFFER 0 (Cxx.size vertices * sizeof_Vertex)
                                   (VertexData vertices)] in
     (r ← VertexBufferObject.move_assign this_addr other_addr this other;
      VertexBufferObject.UpdateVBO vertices r.1) log
     = Normal b' (log ++ calls) /\
     VertexBufferObject.m_ID b' = VertexBufferObject.m_ID other /\
     allocated_size (log ++ calls) (VertexBufferObject.m_ID b') = Some store /\
     VertexBufferObject.GetVertexCount b' = Z.of_nat (length vertices)) /\
  (Cxx.size vertices * sizeof_Vertex = store ->
   exists b',
     VertexBufferObject.UpdateVBO vertices (VertexBufferObject.move_construct other).1 log
     = Normal b'
         (log ++ [glBindBuffer GL_ARRAY_BUFFER (VertexBufferObject.m_ID other);
                  glBufferData GL_ARRAY_BUFFER (Cxx.size vertices * sizeof_Vertex)
                               (VertexData vertices) (VertexBufferObject.m_Usage other)]) /\
     VertexBufferObject.m_ID b' = VertexBufferObject.m_ID other /\
     VertexBufferObject.GetVertexCount b' = Z.of_nat (length vertices)).
Proof.
  intros Haddr Hids Hok Hne Hstore.
  pose proof (byte_size_no_wrap sizeof_Vertex vertices ltac:(discriminate) Hok) as W.
  split.
  - intros Hstale Hdiff.
    unfold VertexBufferObject.move_assign. rewrite (bool_decide_eq_true_2 _ Haddr).
    unfold mbind, GL_bind, bind, mret, GL_ret, ret, call. cbn [fst].
    rewrite VertexBufferObject_UpdateVBO_unfold. cbv zeta.
    cbn [VertexBufferObject.m_Size VertexBufferObject.m_ID VertexBufferObject.m_Usage].
    rewrite W, (proj2 (Z.eqb_eq _ _) Hstale).
    eexists. split; [rewrite <- app_assoc; reflexivity |].
    cbn [VertexBufferObject.m_ID VertexBufferObject.GetVertexCount
         VertexBufferObject.m_VertexCount].
    split; [reflexivity |]. split; [| reflexivity].
    unfold allocated_size in *. rewrite driver_after_app. cbn.
    rewrite lookup_delete_ne by exact Hids. exact Hstore.
  - intros Hsame.
    rewrite VertexBufferObject_UpdateVBO_unfold. cbv zeta.
    cbn [VertexBufferObject.move_construct fst VertexBufferObject.m_Size
         VertexBufferObject.m_ID VertexBufferObject.m_Usage].
    rewrite W.
    assert (Hpos : (Cxx.size vertices * sizeof_Vertex =? 0) = false).
    { apply Z.eqb_neq. unfold Cxx.size, sizeof_Vertex.
      destruct vertices; [congruence | cbn [length]; lia]. }
    rewrite Hpos. eexists. split; [reflexivity |]. split; reflexivity.
Qed.

Lemma UpdateVBO_goes_by_stale_size_witness :
  (1000 <> 2000 /\
   VertexBufferObject.m_ID three_vertex_buffer <> VertexBufferObject.m_ID one_vertex_buffer /\
   Cxx.vector_ok sizeof_Vertex triangle /\ triangle <> [] /\
   allocated_size two_buffers_log 4 = Some 44 /\
   Cxx.size triangle * sizeof_Vertex = 132 /\
   exists b',
     (r ← VertexBufferObject.move_assign 1000 2000 three_vertex_buffer one_vertex_buffer;
      VertexBufferObject.UpdateVBO triangle r.1) two_buffers_log
     = Normal b' (two_buffers_log ++
                  [glDeleteBuffers 1; glBindBuffer GL_ARRAY_BUFFER 4;
                   glBufferSubData GL_ARRAY_BUFFER 0 132 (VertexData triangle)]) /\
     VertexBufferObject.m_ID b' = 4 /\
     allocated_size (two_buffers_log ++
                     [glDeleteBuffers 1; glBindBuffer GL_ARRAY_BUFFER 4;
                      glBufferSubData GL_ARRAY_BUFFER 0 132 (VertexData triangle)]) 4
     = Some 44 /\
     VertexBufferObject.GetVertexCount b' = 3) /\
  (Cxx.vector_ok sizeof_Vertex [vertex0] /\
   Cxx.size [vertex0] * sizeof_Vertex = 44 /\
   exists b',
     VertexBufferObject.UpdateVBO [vertex0]
       (VertexBufferObject.move_construct one_vertex_buffer).1 two_buffers_log
     = Normal b' (two_buffers_log ++
                  [glBindBuffer GL_ARRAY_BUFFER 4;
                   glBufferData GL_ARRAY_BUFFER 44 (VertexData [vertex0])
                                BufferUsage.DynamicDraw]) /\
     VertexBufferObject.m_ID b' = 4 /\
     VertexBufferObject.GetVertexCount b' = 1).
Proof.
  assert (Haddr : 1000 <> 2000) by discriminate.
  assert (Hids : VertexBufferObject.m_ID three_vertex_buffer
                 <> VertexBufferObject.m_ID one_vertex_buffer) by discriminate.
  assert (Hok3 : Cxx.vector_ok sizeof_Vertex triangle) by (vm_compute; discriminate).
  assert (Hok1 : Cxx.vector_ok sizeof_Vertex [vertex0]) by (vm_compute; discriminate).
  assert (Hne3 : triangle <> []) by discriminate.
  assert (Hne1 : [vertex0] <> []) by discriminate.
  assert (Hstore : allocated_size two_buffers_log (VertexBufferObject.m_ID one_vertex_buffer)
                   = Some 44) by (vm_compute; reflexivity).
  split.
  - split; [exact Haddr |]. split; [exact Hids |]. split; [exact Hok3 |].
    split; [exact Hne3 |]. split; [exact Hstore |]. split; [reflexivity |].
    destruct (proj1 (UpdateVBO_goes_by_stale_size three_vertex_buffer one_vertex_buffer
                       triangle 1000 2000 two_buffers_log 44 Haddr Hids Hok3 Hne3 Hstore)
                eq_refl ltac:(discriminate)) as (b' & Hrun & Hid & Hsize & Hcount).
    exists b'. split; [exact Hrun |]. split; [exact Hid |]. split; [| exact Hcount].
    rewrite Hid in Hsize. exact Hsize.
  - split; [exact Hok1 |]. split; [reflexivity |].
    destruct (proj2 (UpdateVBO_goes_by_stale_size three_vertex_buffer one_vertex_buffer
                       [vertex0] 1000 2000 two_buffers_log 44 Haddr Hids Hok1 Hne1 Hstore)
                eq_refl) as (b' & Hrun & Hid & Hcount).
    exists b'. split; [exact Hrun |]. split; [exact Hid | exact Hcount].
Defined.
